(** * Reconciliation tracer: a shallow embedding of
      [agents/reconciliation_tracer.py] and the properties of its
      decision core.

    Conventions of the embedding.

    - A Python [str] is a Rocq [string] holding the UTF-8 bytes of the
      text.  The builtins whose behaviour depends on the Unicode
      database ([\d] in a pattern, [str.strip], [float], the escapes of
      [repr]) are modelled on ASCII digits, ASCII white space and ASCII
      control characters; every other string operation used by the module
      ([in], [replace], concatenation) acts the same on the bytes as on
      the code points.  The model and Python agree on the plain texts,
      those made of ASCII characters and the signs € and £ ([is_plain]);
      a theorem whose statement depends on what is read from a text that
      it does not build itself carries this hypothesis.
    - A Python [float] is an IEEE 754 binary64 number, represented by
      [spec_float] with precision 53 and maximal exponent 1024; the
      arithmetic is the correctly rounded arithmetic of [SpecFloat].
    - [datetime.now()] is an oracle: a clock that is read through a counter
      kept next to the tracer.
    - Exceptions are values of [exn]; a computation that may raise has a
      result in [exn + A]. *)

From Stdlib Require Import ZArith List String Ascii Bool Lia.
From Stdlib Require Import Numbers.DecimalString Floats.SpecFloat.
From Stdlib Require Numbers.DecimalFacts Numbers.DecimalN.
Import ListNotations.

Local Open Scope string_scope.
Local Open Scope Z_scope.

(** ** Python strings *)

Module PyStr.

Definition char_eqb (a b : ascii) : bool := Ascii.eqb a b.

(** [prefix_b p s]: [s.startswith(p)]. *)
Fixpoint prefix_b (p s : string) : bool :=
  match p, s with
  | EmptyString, _ => true
  | String a p', String b s' => char_eqb a b && prefix_b p' s'
  | String _ _, EmptyString => false
  end.

(** [str_in needle hay]: the Python test [needle in hay]. *)
Fixpoint str_in (needle hay : string) : bool :=
  prefix_b needle hay ||
  match hay with
  | EmptyString => false
  | String _ hay' => str_in needle hay'
  end.

(** [replace_go old new skip s]: left-to-right replacement of the
    non-overlapping occurrences of the non-empty [old]; [skip] counts the
    characters of an occurrence that still have to be dropped. *)
Fixpoint replace_go (old new : string) (skip : nat) (s : string) : string :=
  match s with
  | EmptyString => EmptyString
  | String c s' =>
      match skip with
      | S k => replace_go old new k s'
      | O =>
          if prefix_b old s
          then new ++ replace_go old new (Nat.pred (String.length old)) s'
          else String c (replace_go old new O s')
      end
  end.

(** [s.replace(old, new)] for a non-empty [old]. *)
Definition replace (old new s : string) : string := replace_go old new O s.

(** White space that [str.strip()] removes, among the ASCII characters:
    TAB, LF, VT, FF, CR, the separators 0x1c-0x1f and the space.  The
    white space outside ASCII (U+00A0 and the like) is not modelled. *)
Definition is_space (c : ascii) : bool :=
  let n := nat_of_ascii c in
  ((9 <=? n) && (n <=? 13) || (28 <=? n) && (n <=? 32))%nat.

Fixpoint lstrip (s : string) : string :=
  match s with
  | String c s' => if is_space c then lstrip s' else s
  | EmptyString => EmptyString
  end.

Fixpoint rstrip (s : string) : string :=
  match s with
  | EmptyString => EmptyString
  | String c s' =>
      match rstrip s' with
      | EmptyString => if is_space c then EmptyString else String c EmptyString
      | r => String c r
      end
  end.

Definition strip (s : string) : string := rstrip (lstrip s).

(** [len(s)]: the number of code points, that is of bytes that are not
    UTF-8 continuation bytes. *)
Fixpoint len (s : string) : Z :=
  match s with
  | EmptyString => 0
  | String c s' =>
      let n := nat_of_ascii c in
      (if ((128 <=? n) && (n <? 192))%nat then 0 else 1) + len s'
  end.

(** The ASCII digits: what [\d] and [float] take for a digit in a plain
    text.  The other decimal digits of the Unicode database are not
    modelled. *)
Definition is_digit (c : ascii) : bool :=
  let n := nat_of_ascii c in ((48 <=? n) && (n <=? 57))%nat.

Definition digit_val (c : ascii) : Z := Z.of_nat (nat_of_ascii c) - 48.

Definition lower (c : ascii) : ascii :=
  let n := nat_of_ascii c in
  if ((65 <=? n) && (n <=? 90))%nat then ascii_of_nat (n + 32) else c.

Fixpoint lower_str (s : string) : string :=
  match s with
  | EmptyString => EmptyString
  | String c s' => String (lower c) (lower_str s')
  end.

(** Decimal numeral of a natural number given as [Z], and the same
    left-padded with zeros to [w] characters. *)
Definition of_Z (n : Z) : string := NilZero.string_of_uint (N.to_uint (Z.to_N n)).

Fixpoint zeros (k : nat) : string :=
  match k with O => EmptyString | S k' => String "0" (zeros k') end.

Definition pad0 (w : nat) (n : Z) : string :=
  let s := of_Z n in zeros (w - String.length s) ++ s.

Definition quote : string := String (ascii_of_nat 39) EmptyString.
Definition dquote : string := String (ascii_of_nat 34) EmptyString.
Definition nl : string := String (ascii_of_nat 10) EmptyString.

Definition hex_digit (n : nat) : ascii :=
  if (n <? 10)%nat then ascii_of_nat (48 + n) else ascii_of_nat (87 + n).

(** [repr(s)] of a string: quotes chosen as Python does, backslash
    escapes for the quote, the backslash and the control characters. *)
Fixpoint repr_body (q : ascii) (s : string) : string :=
  match s with
  | EmptyString => EmptyString
  | String c s' =>
      let n := nat_of_ascii c in
      let bs := ascii_of_nat 92 in
      (if char_eqb c q || char_eqb c bs then String bs (String c EmptyString)
       else if (n =? 10)%nat then String bs "n"
       else if (n =? 13)%nat then String bs "r"
       else if (n =? 9)%nat then String bs "t"
       else if ((n <? 32) || (n =? 127))%nat
            then String bs (String "x" (String (hex_digit (n / 16))
                                          (String (hex_digit (n mod 16)) EmptyString)))
       else String c EmptyString) ++ repr_body q s'
  end.

Definition repr (s : string) : string :=
  let q := if str_in quote s && negb (str_in dquote s)
           then ascii_of_nat 34 else ascii_of_nat 39 in
  String q (repr_body q s) ++ String q EmptyString.

End PyStr.

(** ** Python floats (binary64) *)

Module PyFloat.

Definition prec : Z := 53.
Definition emax : Z := 1024.

Definition float : Type := spec_float.

Definition nan : float := S754_nan.
Definition inf (s : bool) : float := S754_infinity s.
Definition zero (s : bool) : float := S754_zero s.

(** [of_ratio s n d]: the binary64 number nearest to [n / d] (ties to
    even), with sign [s]; this is what Python computes for the true
    division of two integers and for the conversion of an integer. *)
Definition of_ratio (s : bool) (n d : Z) : float :=
  match n, d with
  | Zpos _, Zpos _ =>
      let '(mz, ez, lz) := SFdiv_core_binary prec emax n 0 d 0 in
      binary_round_aux prec emax s mz ez lz
  | _, _ => S754_zero s
  end.

(** [of_dec s m e]: the binary64 number nearest to [m * 10^e]. *)
Definition of_dec (s : bool) (m e : Z) : float :=
  if 0 <=? e then of_ratio s (m * 10 ^ e) 1 else of_ratio s m (10 ^ (- e)).

(** [float(n)] for an integer [n], and integer true division [n / d]
    for [d > 0]. *)
Definition of_int (n : Z) : float := of_ratio (n <? 0) (Z.abs n) 1.
Definition int_truediv (n d : Z) : float := of_ratio (n <? 0) (Z.abs n) d.

Definition add : float -> float -> float := SFadd prec emax.
Definition sub : float -> float -> float := SFsub prec emax.
Definition mul : float -> float -> float := SFmul prec emax.
Definition div : float -> float -> float := SFdiv prec emax.
Definition abs : float -> float := SFabs.
Definition ltb : float -> float -> bool := SFltb.
Definition leb : float -> float -> bool := SFleb.
(** [a > b] *)
Definition gtb (a b : float) : bool := SFltb b a.

(** The builtin [max(a, b)]: the first argument is kept unless the
    second compares greater. *)
Definition max2 (a b : float) : float := if gtb b a then b else a.

(** [max(l)] on a non-empty list, [None] standing for the [ValueError]
    of the empty one. *)
Definition max_list (l : list float) : option float :=
  match l with
  | [] => None
  | x :: l' => Some (fold_left max2 l' x)
  end.

End PyFloat.

(** ** Exceptions *)

Module Py.

(** An exception: its class and its message, [str(e)]. *)
Record exn : Type := Exn { exn_class : string; exn_str : string }.

Definition ValueError (msg : string) : exn := Exn "ValueError" msg.
Definition FileNotFoundError (msg : string) : exn := Exn "FileNotFoundError" msg.
Definition GraphRecursionError (msg : string) : exn := Exn "GraphRecursionError" msg.

(** A computation that returns an [A] or raises. *)
Definition outcome (A : Type) : Type := (exn + A)%type.

Definition bind {A B : Type} (m : outcome A) (f : A -> outcome B) : outcome B :=
  match m with
  | inl e => inl e
  | inr a => f a
  end.

(** [[f(x) for x in l]], raising at the first element on which [f]
    raises. *)
Fixpoint traverse {A B : Type} (f : A -> outcome B) (l : list A) : outcome (list B) :=
  match l with
  | [] => inr []
  | x :: l' => bind (f x) (fun y => bind (traverse f l') (fun ys => inr (y :: ys)))
  end.

End Py.

(** ** Conversions between floats and text *)

Module FloatText.
Import PyStr PyFloat Py.

(** *** [float(s)] *)

(** A run of digits in which single underscores may separate digits;
    [n] is the number of digits already read, [acc] their value.  The
    result is the value, the number of digits and the unread rest. *)
Fixpoint scan_digits (s : string) (acc : Z) (n : nat) : Z * nat * string :=
  match s with
  | EmptyString => (acc, n, s)
  | String c s' =>
      if is_digit c then scan_digits s' (10 * acc + digit_val c) (S n)
      else if char_eqb c "_" && (0 <? n)%nat then
        match s' with
        | String d s'' =>
            if is_digit d then scan_digits s'' (10 * acc + digit_val d) (S n)
            else (acc, n, s)
        | EmptyString => (acc, n, s)
        end
      else (acc, n, s)
  end.

(** An optional sign: whether it is a minus, and the rest. *)
Definition split_sign (s : string) : bool * string :=
  match s with
  | String "-" r => (true, r)
  | String "+" r => (false, r)
  | _ => (false, s)
  end.

(** The exponent part, after the letter [e]. *)
Definition parse_exponent (s : string) : option Z :=
  let '(neg, r) := split_sign s in
  match scan_digits r 0 0 with
  | (v, S _, EmptyString) => Some (if neg then - v else v)
  | _ => None
  end.

(** An unsigned decimal literal: the integer [m] and the power of ten
    [e] with value [m * 10^e]. *)
Definition parse_decimal (s : string) : option (Z * Z) :=
  let '(ip, ni, r1) := scan_digits s 0 0 in
  let '(m, nf, r2) :=
    match r1 with
    | String "." r => scan_digits r ip 0
    | _ => (ip, O, r1)
    end in
  if (ni + nf =? 0)%nat then None
  else
    match r2 with
    | EmptyString => Some (m, - Z.of_nat nf)
    | String c r3 =>
        if char_eqb (lower c) "e" then
          match parse_exponent r3 with
          | Some e => Some (m, e - Z.of_nat nf)
          | None => None
          end
        else None
    end.

(** The white space that [float] skips at both ends of an ASCII text:
    TAB, LF, VT, FF, CR and the space.  The separators 0x1c-0x1f, which
    [str.strip] removes, are not among them: [float] raises on a text
    that starts or ends with one. *)
Definition is_c_space (c : ascii) : bool :=
  let n := nat_of_ascii c in
  ((9 <=? n) && (n <=? 13) || (n =? 32))%nat.

Fixpoint lstrip_c (s : string) : string :=
  match s with
  | String c s' => if is_c_space c then lstrip_c s' else s
  | EmptyString => EmptyString
  end.

Fixpoint rstrip_c (s : string) : string :=
  match s with
  | EmptyString => EmptyString
  | String c s' =>
      match rstrip_c s' with
      | EmptyString => if is_c_space c then EmptyString else String c EmptyString
      | r => String c r
      end
  end.

Definition float_strip (s : string) : string := rstrip_c (lstrip_c s).

Definition parse_float (s : string) : option float :=
  let t := float_strip s in
  let '(neg, r) := split_sign t in
  let l := lower_str r in
  if String.eqb l "inf" || String.eqb l "infinity" then Some (inf neg)
  else if String.eqb l "nan" then Some nan
  else
    match parse_decimal r with
    | Some (m, e) => Some (if m =? 0 then zero neg else of_dec neg m e)
    | None => None
    end.

(** [float(s)] for a string [s]. *)
Definition float_of_str (s : string) : outcome float :=
  match parse_float s with
  | Some x => inr x
  | None => inl (ValueError ("could not convert string to float: " ++ repr s))
  end.

(** *** [str(x)] *)

Definition same_float (x y : float) : bool :=
  match x, y with
  | S754_zero a, S754_zero b => Bool.eqb a b
  | S754_infinity a, S754_infinity b => Bool.eqb a b
  | S754_nan, S754_nan => true
  | S754_finite a m e, S754_finite b n f => Bool.eqb a b && Pos.eqb m n && (e =? f)
  | _, _ => false
  end.

(** The exact value [n / d] of the finite number [m * 2^e]. *)
Definition exact (m : positive) (e : Z) : Z * Z :=
  if 0 <=? e then (Zpos m * 2 ^ e, 1) else (Zpos m, 2 ^ (- e)).

Definition num_digits (n : Z) : Z := Z.of_nat (String.length (of_Z n)).

(** [n / d < 10^k] *)
Definition below_pow10 (n d k : Z) : bool :=
  if 0 <=? k then n <? d * 10 ^ k else n * 10 ^ (- k) <? d.

(** The decimal point position [k] of [n / d]: [10^(k-1) <= n/d < 10^k]. *)
Definition decpt (n d : Z) : Z :=
  let k0 := num_digits n - num_digits d in
  if below_pow10 n d k0 then k0 else k0 + 1.

(** The integer [c] of at most [p] digits for which [c * 10^(k-p)] is
    the decimal nearest to [n / d] among those that read back as [x]. *)
Definition candidate (x : float) (n d k p : Z) : option Z :=
  let num := n * 10 ^ (Z.max (p - k) 0) in
  let den := d * 10 ^ (Z.max (k - p) 0) in
  let lo := num / den in
  let r := num mod den in
  let back c := same_float (of_dec false c (k - p)) (abs x) in
  if r =? 0 then Some lo
  else
    match back lo, back (lo + 1) with
    | true, true =>
        Some (if 2 * r <? den then lo
              else if den <? 2 * r then lo + 1
              else if Z.even lo then lo else lo + 1)
    | true, false => Some lo
    | false, true => Some (lo + 1)
    | false, false => None
    end.

Fixpoint shortest_go (fuel : nat) (x : float) (n d k p : Z) : Z * Z :=
  match fuel with
  | O => ((n * 10 ^ (Z.max (p - k) 0)) / (d * 10 ^ (Z.max (k - p) 0)), p)
  | S fuel' =>
      match candidate x n d k p with
      | Some c => (c, p)
      | None => shortest_go fuel' x n d k (p + 1)
      end
  end.

Fixpoint strip_zeros_rev (s : list ascii) : list ascii :=
  match s with
  | "0"%char :: s' => strip_zeros_rev s'
  | _ => s
  end.

Definition rstrip_zeros (s : string) : string :=
  string_of_list_ascii (rev (strip_zeros_rev (rev (list_ascii_of_string s)))).

(** The shortest digit string that reads back as the finite [x], and
    the position of its decimal point. *)
Definition shortest (x : float) (m : positive) (e : Z) : string * Z :=
  let '(n, d) := exact m e in
  let k := decpt n d in
  let '(c, p) := shortest_go 17 x n d k 1 in
  let ds := of_Z c in
  (rstrip_zeros ds, k - p + Z.of_nat (String.length ds)).

Definition substring_from (i : nat) (s : string) : string :=
  substring i (String.length s - i) s.

Definition fixed_notation (ds : string) (dp : Z) : string :=
  let n := Z.of_nat (String.length ds) in
  if dp <=? 0 then "0." ++ zeros (Z.to_nat (- dp)) ++ ds
  else if n <=? dp then ds ++ zeros (Z.to_nat (dp - n)) ++ ".0"
  else substring 0 (Z.to_nat dp) ds ++ "." ++ substring_from (Z.to_nat dp) ds.

Definition exp_notation (ds : string) (dp : Z) : string :=
  let e := dp - 1 in
  substring 0 1 ds
    ++ (if (1 <? String.length ds)%nat then "." ++ substring_from 1 ds else "")
    ++ "e" ++ (if e <? 0 then "-" else "+") ++ pad0 2 (Z.abs e).

Definition sign_str (s : bool) : string := if s then "-" else "".

(** [str(x)] (and [repr(x)]) of a float. *)
Definition str_of_float (x : float) : string :=
  match x with
  | S754_nan => "nan"
  | S754_infinity s => sign_str s ++ "inf"
  | S754_zero s => sign_str s ++ "0.0"
  | S754_finite s m e =>
      let '(ds, dp) := shortest x m e in
      sign_str s ++
      (if (dp <=? -4) || (16 <? dp) then exp_notation ds dp else fixed_notation ds dp)
  end.

(** *** [format(x, ".2f")] and [format(x, ",.2f")] *)

(** [n / d] rounded to the nearest integer, ties to even. *)
Definition round_half_even (n d : Z) : Z :=
  let q := n / d in
  let r := n mod d in
  if 2 * r <? d then q
  else if d <? 2 * r then q + 1
  else if Z.even q then q else q + 1.

Fixpoint group3_go (s : string) : string :=
  match s with
  | EmptyString => EmptyString
  | String c s' =>
      String c ((if ((0 <? String.length s') && (String.length s' mod 3 =? 0))%nat
                 then "," else "") ++ group3_go s')
  end.

(** Thousands separators in a digit string. *)
Definition group3 (s : string) : string := group3_go s.

Definition format_2f (commas : bool) (x : float) : string :=
  match x with
  | S754_nan => "nan"
  | S754_infinity s => sign_str s ++ "inf"
  | S754_zero s => sign_str s ++ "0.00"
  | S754_finite s m e =>
      let '(n, d) := exact m e in
      let c := round_half_even (n * 100) d in
      let ip := of_Z (c / 100) in
      sign_str s ++ (if commas then group3 ip else ip) ++ "." ++ pad0 2 (c mod 100)
  end.

End FloatText.

(** ** The fragment of [re] used by the module *)

Module Regex.
Import PyStr.

(** Greedy quantifiers on a character class. *)
Inductive quant : Type := One | Opt | Star | Plus.

(** A pattern is a sequence of quantified character classes. *)
Definition item : Type := ((ascii -> bool) * quant)%type.
Definition pattern : Type := list item.

(** One character of the class, then the rest [k] of the pattern. *)
Definition one_match (cls : ascii -> bool) (k : string -> option nat) (s : string)
  : option nat :=
  match s with
  | String c s' => if cls c then option_map S (k s') else None
  | EmptyString => None
  end.

(** As many characters of the class as possible, then the rest [k] of the
    pattern; one character is given back at a time while [k] fails. *)
Fixpoint star_match (cls : ascii -> bool) (k : string -> option nat) (s : string)
  : option nat :=
  match s with
  | String c s' =>
      if cls c then
        match star_match cls k s' with
        | Some n => Some (S n)
        | None => k s
        end
      else k s
  | EmptyString => k s
  end.

(** [match_here p s]: the length of the match of [p] anchored at the start
    of [s] that the backtracking matcher finds first. *)
Fixpoint match_here (p : pattern) : string -> option nat :=
  match p with
  | [] => fun _ => Some O
  | (cls, q) :: p' =>
      let k := match_here p' in
      match q with
      | One => one_match cls k
      | Opt => fun s => match one_match cls k s with Some n => Some n | None => k s end
      | Star => star_match cls k
      | Plus => one_match cls (star_match cls k)
      end
  end.

(** [findall_go p skip s]: the scan of [re.findall]; [skip] is the number
    of characters of the last match that are still to be passed over.  An
    empty match is recorded and the scan moves on by one character. *)
Fixpoint findall_go (p : pattern) (skip : nat) (s : string) : list string :=
  match s with
  | EmptyString =>
      match skip, match_here p EmptyString with
      | O, Some _ => [EmptyString]
      | _, _ => []
      end
  | String _ s' =>
      match skip with
      | S k => findall_go p k s'
      | O =>
          match match_here p s with
          | Some n => substring 0 n s :: findall_go p (Nat.pred n) s'
          | None => findall_go p O s'
          end
      end
  end.

(** [re.findall(p, s)] for a pattern without groups. *)
Definition findall (p : pattern) (s : string) : list string := findall_go p O s.

Definition is_sign (c : ascii) : bool := char_eqb c "-" || char_eqb c "+".
Definition is_dot (c : ascii) : bool := char_eqb c ".".

End Regex.

(** ** Number extraction *)

Module Extract.
Import PyStr PyFloat Py FloatText Regex.

(** The currency signs, as UTF-8. *)
Definition euro : string :=
  String (ascii_of_nat 226) (String (ascii_of_nat 130) (String (ascii_of_nat 172) "")).
Definition pound : string :=
  String (ascii_of_nat 194) (String (ascii_of_nat 163) "").

(** [number_pattern = r'[-+]?\d*\.?\d+'] *)
Definition number_pattern : pattern :=
  [(is_sign, Opt); (is_digit, Star); (is_dot, Opt); (is_digit, Plus)].

Definition nonempty (s : string) : bool := negb (String.eqb s "").

(** The body of the [try] block of [_extract_number]. *)
Definition extract_body (text : string) : outcome (option float) :=
  let cleaned :=
    strip (replace pound "" (replace euro "" (replace "," "" (replace "$" "" text)))) in
  let matches := findall number_pattern cleaned in
  match matches with
  | [] => inr None
  | _ :: _ =>
      bind (traverse float_of_str (filter nonempty matches))
           (fun numbers => inr (max_list numbers))
  end.

(** [_extract_number(text)]: [None] for an empty text, for a text without
    a number and when the body raises [ValueError] or [AttributeError].
    The value is that of the source on the plain texts
    ([TextNotions.is_plain]). *)
Definition _extract_number (text : string) : outcome (option float) :=
  if String.eqb text "" then inr None
  else
    match extract_body text with
    | inr r => inr r
    | inl e =>
        if String.eqb (exn_class e) "ValueError"
           || String.eqb (exn_class e) "AttributeError"
        then inr None
        else inl e
    end.

End Extract.

(** ** Dictionaries and time stamps *)

Module PyDict.

(** A [dict] with string keys: the items in insertion order, at most one
    item per key. *)
Definition dict (V : Type) : Type := list (string * V).

Fixpoint get {V : Type} (k : string) (d : dict V) : option V :=
  match d with
  | [] => None
  | (k', v) :: d' => if String.eqb k k' then Some v else get k d'
  end.

(** [d[k] = v]: the value of an existing key is replaced in place, a new
    key goes to the end. *)
Fixpoint set {V : Type} (k : string) (v : V) (d : dict V) : dict V :=
  match d with
  | [] => [(k, v)]
  | (k', v') :: d' => if String.eqb k k' then (k, v) :: d' else (k', v') :: set k v d'
  end.

Definition mem {V : Type} (k : string) (d : dict V) : bool :=
  match get k d with Some _ => true | None => false end.

Definition values {V : Type} (d : dict V) : list V := map snd d.

End PyDict.

Module PyTime.
Import PyStr PyFloat.

(** A naive [datetime]. *)
Record datetime : Type := Datetime {
  year : Z; month : Z; day : Z;
  hour : Z; minute : Z; second : Z; microsecond : Z
}.

(** [dt.strftime('%Y%m%d_%H%M%S')], for a year of four digits. *)
Definition strftime_compact (t : datetime) : string :=
  pad0 4 (year t) ++ pad0 2 (month t) ++ pad0 2 (day t) ++ "_"
    ++ pad0 2 (hour t) ++ pad0 2 (minute t) ++ pad0 2 (second t).

Definition is_leap (y : Z) : bool :=
  (y mod 4 =? 0) && (negb (y mod 100 =? 0) || (y mod 400 =? 0)).

Definition days_before_year (y : Z) : Z :=
  let p := y - 1 in p * 365 + p / 4 - p / 100 + p / 400.

Definition days_before_month (y m : Z) : Z :=
  nth (Z.to_nat m) [0; 0; 31; 59; 90; 120; 151; 181; 212; 243; 273; 304; 334] 0
  + (if (2 <? m) && is_leap y then 1 else 0).

Definition toordinal (t : datetime) : Z :=
  days_before_year (year t) + days_before_month (year t) (month t) + day t.

(** The instant in microseconds from the start of the calendar. *)
Definition to_micros (t : datetime) : Z :=
  ((toordinal t * 86400) + hour t * 3600 + minute t * 60 + second t) * 1000000
  + microsecond t.

(** [(b - a).total_seconds()] *)
Definition seconds_between (a b : datetime) : float :=
  int_truediv (to_micros b - to_micros a) 1000000.

End PyTime.

(** ** The reconciliation tracer *)

Module Tracer.
Import PyStr PyFloat Py FloatText PyDict PyTime Extract.

(** *** Data *)

(** [ReconciliationState], the record threaded through the workflow. *)
Record ReconciliationState : Type := mkState {
  invoice_amount : string;
  spreadsheet_amount : string;
  reconciliation_result : string;
  verdict : string;
  thinking_log : dict string;
  trace_id : string;
  workflow_step : string;
  error : string
}.

Definition set_invoice_amount (v : string) (s : ReconciliationState) :=
  mkState v (spreadsheet_amount s) (reconciliation_result s) (verdict s)
          (thinking_log s) (trace_id s) (workflow_step s) (error s).
Definition set_spreadsheet_amount (v : string) (s : ReconciliationState) :=
  mkState (invoice_amount s) v (reconciliation_result s) (verdict s)
          (thinking_log s) (trace_id s) (workflow_step s) (error s).
Definition set_reconciliation_result (v : string) (s : ReconciliationState) :=
  mkState (invoice_amount s) (spreadsheet_amount s) v (verdict s)
          (thinking_log s) (trace_id s) (workflow_step s) (error s).
Definition set_verdict (v : string) (s : ReconciliationState) :=
  mkState (invoice_amount s) (spreadsheet_amount s) (reconciliation_result s) v
          (thinking_log s) (trace_id s) (workflow_step s) (error s).
Definition set_thinking_log (v : dict string) (s : ReconciliationState) :=
  mkState (invoice_amount s) (spreadsheet_amount s) (reconciliation_result s) (verdict s)
          v (trace_id s) (workflow_step s) (error s).
Definition set_workflow_step (v : string) (s : ReconciliationState) :=
  mkState (invoice_amount s) (spreadsheet_amount s) (reconciliation_result s) (verdict s)
          (thinking_log s) (trace_id s) v (error s).
Definition set_error (v : string) (s : ReconciliationState) :=
  mkState (invoice_amount s) (spreadsheet_amount s) (reconciliation_result s) (verdict s)
          (thinking_log s) (trace_id s) (workflow_step s) v.

(** The [state_snapshot] of a step record. *)
Record snapshot : Type := mkSnapshot {
  snap_workflow_step : string;
  snap_invoice_amount : string;
  snap_spreadsheet_amount : string;
  snap_verdict : string
}.

(** An item of [workflow_steps]. *)
Record step_record : Type := mkStep {
  step : string;
  timestamp : datetime;
  thinking : string;
  state_snapshot : snapshot
}.

(** The [final_state] summary written when a run is sealed. *)
Record final_summary : Type := mkFinal {
  fin_workflow_step : string;
  fin_has_error : bool;
  fin_verdict : string;
  fin_reconciliation_result : string
}.

(** A value of [trace_data].  The time stamps stand for their ISO texts;
    [None] is the Python [None] for [end_time] and [result] and an absent
    key for [final_state] and [error]. *)
Record trace : Type := mkTrace {
  workflow_steps : list step_record;
  start_time : datetime;
  end_time : option datetime;
  result : option string;
  state_transitions : list unit;
  final_state : option final_summary;
  trace_error : option string
}.

Definition set_workflow_steps (v : list step_record) (t : trace) :=
  mkTrace v (start_time t) (end_time t) (result t) (state_transitions t)
          (final_state t) (trace_error t).
Definition set_end_time (v : option datetime) (t : trace) :=
  mkTrace (workflow_steps t) (start_time t) v (result t) (state_transitions t)
          (final_state t) (trace_error t).
Definition set_result (v : option string) (t : trace) :=
  mkTrace (workflow_steps t) (start_time t) (end_time t) v (state_transitions t)
          (final_state t) (trace_error t).
Definition set_final_state (v : option final_summary) (t : trace) :=
  mkTrace (workflow_steps t) (start_time t) (end_time t) (result t) (state_transitions t)
          v (trace_error t).
Definition set_trace_error (v : option string) (t : trace) :=
  mkTrace (workflow_steps t) (start_time t) (end_time t) (result t) (state_transitions t)
          (final_state t) v.

(** The fields of a [ReconciliationTracer] that the workflow uses. *)
Record tracer : Type := mkTracer {
  trace_data : dict trace;
  current_trace_id : option string;
  live_thinking : dict string
}.

(** The [workflow_metrics] and the document written by the export. *)
Record metrics : Type := mkMetrics {
  total_executions : Z;
  success_rate : float;
  failure_rate : float;
  average_duration : float;
  min_duration : float;
  max_duration : float;
  total_thinking_steps : Z
}.

Record observability : Type := mkObs {
  total_workflow_steps : Z;
  execution_duration : option float;
  obs_state_transitions : Z;
  thinking_process_length : Z;
  obs_success_rate : float
}.

Record export_doc : Type := mkExport {
  exp_trace_data : trace * observability;
  exp_workflow_metrics : option metrics;
  export_timestamp : datetime;
  langraph_version : string
}.

(** The tracer together with what it acts on: the number of readings of
    the clock so far and the files written. *)
Record world : Type := mkWorld {
  self : tracer;
  clock_reads : nat;
  files : list (string * export_doc)
}.

(** The tracer as [__init__] leaves it. *)
Definition empty_thinking : dict string :=
  [("parsing", ""); ("comparison", ""); ("verdict", "")].

Definition init : tracer := mkTracer [] None empty_thinking.

(** Truth value of an optional string: [None] and the empty string are
    false. *)
Definition truthy (o : option string) : bool :=
  match o with
  | Some s => negb (String.eqb s "")
  | None => false
  end.

(** *** Methods act on the world and may raise *)

Definition M (A : Type) : Type := world -> outcome A * world.

Definition ret {A : Type} (a : A) : M A := fun w => (inr a, w).
Definition raise {A : Type} (e : exn) : M A := fun w => (inl e, w).
Definition mbind {A B : Type} (m : M A) (f : A -> M B) : M B :=
  fun w => match m w with
           | (inr a, w') => f a w'
           | (inl e, w') => (inl e, w')
           end.

(** [try: m  except Exception as e: h e] *)
Definition try_except {A : Type} (m : M A) (h : exn -> M A) : M A :=
  fun w => match m w with
           | (inr a, w') => (inr a, w')
           | (inl e, w') => h e w'
           end.

Definition get_self : M tracer := fun w => (inr (self w), w).
Definition put_self (t : tracer) : M unit :=
  fun w => (inr tt, mkWorld t (clock_reads w) (files w)).

Notation "x <- m ;; k" := (mbind m (fun x => k))
  (at level 61, m at next level, right associativity).
Notation "m ;;; k" := (mbind m (fun _ => k))
  (at level 61, right associativity).

Definition set_trace_data (d : dict trace) : M unit :=
  t <- get_self ;; put_self (mkTracer d (current_trace_id t) (live_thinking t)).
Definition set_current_trace_id (i : option string) : M unit :=
  t <- get_self ;; put_self (mkTracer (trace_data t) i (live_thinking t)).
Definition set_live_thinking (l : dict string) : M unit :=
  t <- get_self ;; put_self (mkTracer (trace_data t) (current_trace_id t) l).

(** [self.trace_data[key]], with its [KeyError]. *)
Definition KeyError (k : string) : exn := Exn "KeyError" (repr k).

Definition lookup_trace (key : option string) : M trace :=
  t <- get_self ;;
  match key with
  | Some k =>
      match get k (trace_data t) with
      | Some tr => ret tr
      | None => raise (KeyError k)
      end
  | None => raise (Exn "KeyError" "None")
  end.

(** [self.trace_data[key][field] = value], as an update [f] of the trace. *)
Definition update_trace (key : option string) (f : trace -> trace) : M unit :=
  tr <- lookup_trace key ;;
  t <- get_self ;;
  match key with
  | Some k => set_trace_data (set k (f tr) (trace_data t))
  | None => ret tt
  end.

Section WithClock.

(** The successive values of [datetime.now()]. *)
Variable clock : nat -> datetime.

Definition now : M datetime :=
  fun w => (inr (clock (clock_reads w)),
            mkWorld (self w) (S (clock_reads w)) (files w)).

Definition _create_trace_id : M string :=
  t0 <- now ;;
  let id := "reconciliation_trace_" ++ strftime_compact t0 in
  set_current_trace_id (Some id) ;;;
  t1 <- now ;;
  t <- get_self ;;
  set_trace_data (set id (mkTrace [] t1 None None [] None None) (trace_data t)) ;;;
  ret id.

Definition _log_thinking (state : ReconciliationState) (step_name thinking_text : string)
  : M ReconciliationState :=
  t <- get_self ;;
  (if truthy (current_trace_id t) then ret tt
   else _create_trace_id ;;; ret tt) ;;;
  t <- get_self ;;
  set_live_thinking (set step_name thinking_text (live_thinking t)) ;;;
  let state := set_thinking_log (set step_name thinking_text (thinking_log state)) state in
  t <- get_self ;;
  tr <- lookup_trace (current_trace_id t) ;;
  ts <- now ;;
  update_trace (current_trace_id t)
    (set_workflow_steps
       (workflow_steps tr ++
        [mkStep step_name ts thinking_text
           (mkSnapshot (workflow_step state) (invoice_amount state)
                       (spreadsheet_amount state) (verdict state))])) ;;;
  ret state.

(** *** The three nodes *)

(** The local variables of a node's [try] block that survive it: the
    state and the narration; the first component is the exception that
    ended the block, if any. *)
Definition block_end : Type := (option exn * (ReconciliationState * string))%type.

Definition str_of_number (n : option float) : string :=
  match n with
  | Some x => str_of_float x
  | None => "None"
  end.

Definition str_of_bool (b : bool) : string := if b then "True" else "False".

Definition parse_body (state : ReconciliationState) (thinking_text : string) : block_end :=
  let invoice_amount0 := invoice_amount state in
  let spreadsheet_amount0 := spreadsheet_amount state in
  match _extract_number invoice_amount0 with
  | inl e => (Some e, (state, thinking_text))
  | inr invoice_number =>
      let thinking_text :=
        thinking_text ++ "• Invoice amount extracted: " ++ str_of_number invoice_number ++ nl in
      match _extract_number spreadsheet_amount0 with
      | inl e => (Some e, (state, thinking_text))
      | inr spreadsheet_number =>
          let thinking_text :=
            thinking_text ++ "• Spreadsheet amount extracted: "
              ++ str_of_number spreadsheet_number ++ nl in
          let state :=
            set_invoice_amount
              (match invoice_number with Some x => str_of_float x | None => "0" end) state in
          let state :=
            set_spreadsheet_amount
              (match spreadsheet_number with Some x => str_of_float x | None => "0" end) state in
          (None, (state, thinking_text ++ nl ++ "✅ Amount parsing completed" ++ nl))
      end
  end.

(** Node 1 up to its [return]: the state and the narration handed to
    [_log_thinking]. *)
Definition parse_stage (state : ReconciliationState) : ReconciliationState * string :=
  let state := set_workflow_step "parse_amounts" state in
  let thinking_text :=
    nl ++ "🔍 AMOUNT PARSING" ++ nl ++ "================" ++ nl
      ++ "Invoice Data: " ++ invoice_amount state ++ nl
      ++ "Spreadsheet Data: " ++ spreadsheet_amount state ++ nl ++ nl
      ++ "Extracting numerical values for comparison..." ++ nl in
  let '(state, thinking_text) :=
    match parse_body state thinking_text with
    | (None, l) => l
    | (Some e, (state, thinking_text)) =>
        (set_error (exn_str e) state,
         thinking_text ++ nl ++ "❌ Error during amount parsing: " ++ exn_str e ++ nl)
    end in
  (state, thinking_text).

(** LangGraph node 1. *)
Definition parse_amounts_node (state : ReconciliationState) : M ReconciliationState :=
  let '(state, thinking_text) := parse_stage state in
  _log_thinking state "parsing" thinking_text.

(** [tolerance = 0.01] *)
Definition tolerance : float := of_dec false 1 (-2).

(** The arithmetic of the comparison: [difference], [percentage_diff]
    and [amounts_match].  The integer [0] that the source takes for
    [percentage_diff] when the guard fails is the float zero here: both
    compare and print alike. *)
Definition compare_core (invoice_val spreadsheet_val : float) : float * float * bool :=
  let difference := abs (sub invoice_val spreadsheet_val) in
  let percentage_diff :=
    if gtb (max2 invoice_val spreadsheet_val) (of_int 0)
    then mul (div difference (max2 invoice_val spreadsheet_val)) (of_int 100)
    else of_int 0 in
  let amounts_match := leb percentage_diff tolerance in
  (difference, percentage_diff, amounts_match).

Definition comparison_text (invoice_val spreadsheet_val difference percentage_diff : float)
    (amounts_match : bool) : string :=
  if amounts_match then
    "MATCH: Invoice amount $" ++ format_2f true invoice_val
      ++ " matches spreadsheet amount $" ++ format_2f true spreadsheet_val
      ++ " (difference: $" ++ format_2f true difference ++ ")"
  else
    "MISMATCH: Invoice amount $" ++ format_2f true invoice_val
      ++ " does not match spreadsheet amount $" ++ format_2f true spreadsheet_val
      ++ " (difference: $" ++ format_2f true difference ++ ", "
      ++ format_2f false percentage_diff ++ "%)".

Definition compare_body (state : ReconciliationState) (thinking_text : string) : block_end :=
  match float_of_str (invoice_amount state) with
  | inl e => (Some e, (state, thinking_text))
  | inr invoice_val =>
      match float_of_str (spreadsheet_amount state) with
      | inl e => (Some e, (state, thinking_text))
      | inr spreadsheet_val =>
          let '(difference, percentage_diff, amounts_match) :=
            compare_core invoice_val spreadsheet_val in
          let thinking_text :=
            thinking_text
              ++ "• Invoice numerical value: " ++ format_2f true invoice_val ++ nl
              ++ "• Spreadsheet numerical value: " ++ format_2f true spreadsheet_val ++ nl
              ++ "• Absolute difference: $" ++ format_2f true difference ++ nl
              ++ "• Percentage difference: " ++ format_2f false percentage_diff ++ "%" ++ nl
              ++ "• Tolerance threshold: " ++ str_of_float (mul tolerance (of_int 100))
              ++ "%" ++ nl
              ++ "• Amounts match: " ++ str_of_bool amounts_match ++ nl in
          let comparison_result :=
            comparison_text invoice_val spreadsheet_val difference percentage_diff
                            amounts_match in
          (None, (set_reconciliation_result comparison_result state,
                  thinking_text ++ nl ++ "📊 Comparison result: " ++ comparison_result ++ nl))
      end
  end.

(** The narration that node 2 starts with. *)
Definition compare_header (state : ReconciliationState) : string :=
  nl ++ "⚖️ AMOUNT COMPARISON" ++ nl ++ "===================" ++ nl
    ++ "Invoice Amount: $" ++ invoice_amount state ++ nl
    ++ "Spreadsheet Amount: $" ++ spreadsheet_amount state ++ nl ++ nl
    ++ "Performing comparison analysis..." ++ nl.

(** Node 2 up to its [return]. *)
Definition compare_stage (state : ReconciliationState) : ReconciliationState * string :=
  let state := set_workflow_step "compare_amounts" state in
  let thinking_text := compare_header state in
  let '(state, thinking_text) :=
    match compare_body state thinking_text with
    | (None, l) => l
    | (Some e, (state, thinking_text)) =>
        (set_reconciliation_result ("Error comparing amounts: " ++ exn_str e)
           (set_error (exn_str e) state),
         thinking_text ++ nl ++ "❌ Error during amount comparison: " ++ exn_str e ++ nl)
    end in
  (state, thinking_text).

(** LangGraph node 2. *)
Definition compare_amounts_node (state : ReconciliationState) : M ReconciliationState :=
  let '(state, thinking_text) := compare_stage state in
  _log_thinking state "comparison" thinking_text.

Definition _get_recommendation (verdict_code : string) : string :=
  if String.eqb verdict_code "YES" then
    "Amounts are reconciled. Proceed with processing."
  else if String.eqb verdict_code "NO" then
    "Amounts do not match. Review source documents and resolve discrepancies before proceeding."
  else
    "Manual review required to determine data accuracy.".

(** The [if]/[elif]/[else] of the verdict: the code and the reasoning,
    with the tests in the order of the source. *)
Definition decide_verdict (reconciliation_result0 : string) : string * string :=
  if str_in "MATCH" reconciliation_result0 then
    ("YES", "The amounts from the invoice and spreadsheet match within acceptable tolerance.")
  else if str_in "MISMATCH" reconciliation_result0 then
    ("NO", "The amounts from the invoice and spreadsheet do not match. Investigation required.")
  else
    ("INCONCLUSIVE", "Unable to determine match due to data processing errors.").

Definition verdict_statement (verdict_code reasoning reconciliation_result0 : string) : string :=
  nl ++ "RECONCILIATION VERDICT: " ++ verdict_code ++ nl ++ nl
    ++ "ANALYSIS:" ++ nl ++ reasoning ++ nl ++ nl
    ++ "DETAILS:" ++ nl ++ reconciliation_result0 ++ nl ++ nl
    ++ "RECOMMENDATION:" ++ nl ++ _get_recommendation verdict_code ++ nl.

Definition verdict_body (state : ReconciliationState) (thinking_text : string) : block_end :=
  let reconciliation_result0 := reconciliation_result state in
  let '(verdict_code, reasoning) := decide_verdict reconciliation_result0 in
  let thinking_text :=
    thinking_text ++ "• Final verdict: " ++ verdict_code ++ nl
      ++ "• Reasoning: " ++ reasoning ++ nl in
  (None, (set_verdict (verdict_statement verdict_code reasoning reconciliation_result0) state,
          thinking_text ++ nl ++ "✅ Verdict generation completed" ++ nl)).

(** Node 3 up to its [return]. *)
Definition verdict_stage (state : ReconciliationState) : ReconciliationState * string :=
  let state := set_workflow_step "generate_verdict" state in
  let thinking_text :=
    nl ++ "⚖️ VERDICT GENERATION" ++ nl ++ "====================" ++ nl
      ++ "Reconciliation Result: " ++ reconciliation_result state ++ nl ++ nl
      ++ "Generating final verdict..." ++ nl in
  let '(state, thinking_text) :=
    match verdict_body state thinking_text with
    | (None, l) => l
    | (Some e, (state, thinking_text)) =>
        (set_verdict ("Error generating verdict: " ++ exn_str e)
           (set_error (exn_str e) state),
         thinking_text ++ nl ++ "❌ Error during verdict generation: " ++ exn_str e ++ nl)
    end in
  (state, thinking_text).

(** LangGraph node 3. *)
Definition generate_verdict_node (state : ReconciliationState) : M ReconciliationState :=
  let '(state, thinking_text) := verdict_stage state in
  _log_thinking state "verdict" thinking_text.

(** *** The workflow graph *)

(** Where an edge leads. *)
Inductive target : Type := Node (name : string) | END.

(** A [StateGraph] over [ReconciliationState]. *)
Record StateGraph : Type := mkGraph {
  nodes : dict (ReconciliationState -> M ReconciliationState);
  entry_point : option string;
  edges : dict target
}.

Definition new_graph : StateGraph := mkGraph [] None [].
Definition add_node (name : string) (f : ReconciliationState -> M ReconciliationState)
    (g : StateGraph) : StateGraph :=
  mkGraph (set name f (nodes g)) (entry_point g) (edges g).
Definition set_entry_point (name : string) (g : StateGraph) : StateGraph :=
  mkGraph (nodes g) (Some name) (edges g).
Definition add_edge (a : string) (b : target) (g : StateGraph) : StateGraph :=
  mkGraph (nodes g) (entry_point g) (set a b (edges g)).

Definition _build_workflow : StateGraph :=
  let workflow := new_graph in
  let workflow := add_node "parse_amounts" parse_amounts_node workflow in
  let workflow := add_node "compare_amounts" compare_amounts_node workflow in
  let workflow := add_node "generate_verdict" generate_verdict_node workflow in
  let workflow := set_entry_point "parse_amounts" workflow in
  let workflow := add_edge "parse_amounts" (Node "compare_amounts") workflow in
  let workflow := add_edge "compare_amounts" (Node "generate_verdict") workflow in
  let workflow := add_edge "generate_verdict" END workflow in
  workflow.

(** The number of node executions a compiled graph allows by default. *)
Definition recursion_limit : nat := 25.

(** The execution of a compiled graph from the node [cur]: the states
    returned by the nodes, in order. *)
Fixpoint run_from (g : StateGraph) (fuel : nat) (cur : target) (state : ReconciliationState)
  : M (list ReconciliationState) :=
  match cur with
  | END => ret []
  | Node name =>
      match fuel with
      | O => raise (GraphRecursionError "Recursion limit reached without hitting a stop condition.")
      | S fuel' =>
          match get name (nodes g) with
          | None => raise (KeyError name)
          | Some f =>
              state' <- f state ;;
              rest <- run_from g fuel'
                        (match get name (edges g) with Some t => t | None => END end)
                        state' ;;
              ret (state' :: rest)
          end
      end
  end.

(** [workflow.stream(state)]: the successive states of a run. *)
Definition stream (g : StateGraph) (state : ReconciliationState)
  : M (list ReconciliationState) :=
  match entry_point g with
  | Some name => run_from g recursion_limit (Node name) state
  | None => raise (ValueError "Graph must have an entrypoint")
  end.

(** [workflow.invoke(state)]: the last state of the run. *)
Definition invoke (g : StateGraph) (state : ReconciliationState) : M ReconciliationState :=
  l <- stream g state ;; ret (last l state).

(** *** A run *)

Definition reconcile_amounts (invoice_amount0 spreadsheet_amount0 : string) : M string :=
  trace_id0 <- _create_trace_id ;;
  set_live_thinking empty_thinking ;;;
  let initial_state :=
    mkState invoice_amount0 spreadsheet_amount0 "" "" [] trace_id0 "" "" in
  try_except
    (final_state0 <- invoke _build_workflow initial_state ;;
     t <- get_self ;;
     (if truthy (current_trace_id t) then
        ts <- now ;;
        update_trace (current_trace_id t) (set_end_time (Some ts)) ;;;
        update_trace (current_trace_id t) (set_result (Some (verdict final_state0))) ;;;
        update_trace (current_trace_id t)
          (set_final_state
             (Some (mkFinal (workflow_step final_state0)
                            (negb (String.eqb (error final_state0) ""))
                            (verdict final_state0)
                            (reconciliation_result final_state0))))
      else ret tt) ;;;
     ret (verdict final_state0))
    (fun e =>
       t <- get_self ;;
       (if truthy (current_trace_id t) then
          ts <- now ;;
          update_trace (current_trace_id t) (set_end_time (Some ts)) ;;;
          update_trace (current_trace_id t) (set_trace_error (Some (exn_str e)))
        else ret tt) ;;;
       ret ("Error during reconciliation: " ++ exn_str e)).

Definition get_live_thinking : M (dict string) :=
  t <- get_self ;; ret (live_thinking t).

End WithClock.

(** *** Reading the trace store *)

(** [_calculate_duration(trace)]: [None] while the trace has no end. *)
Definition _calculate_duration (tr : trace) : option float :=
  match end_time tr with
  | Some e => Some (seconds_between (start_time tr) e)
  | None => None
  end.

(** [bool(t.get("error"))] *)
Definition has_error (tr : trace) : bool := truthy (trace_error tr).

Definition sum_Z (l : list Z) : Z := fold_left Z.add l 0.

Definition get_observability (tr : trace) : observability :=
  mkObs (Z.of_nat (List.length (workflow_steps tr)))
        (_calculate_duration tr)
        (Z.of_nat (List.length (state_transitions tr)))
        (sum_Z (map (fun st => len (thinking st)) (workflow_steps tr)))
        (if has_error tr then of_int 0 else of_int 1).

(** [get_trace(trace_id)]: the trace with its [observability] entry, or
    [None]. *)
Definition get_trace (t : tracer) (trace_id0 : option string)
  : option (trace * observability) :=
  let trace_id0 := if truthy trace_id0 then trace_id0 else current_trace_id t in
  match trace_id0 with
  | Some k =>
      if truthy trace_id0 then
        match get k (trace_data t) with
        | Some tr => Some (tr, get_observability tr)
        | None => None
        end
      else None
  | None => None
  end.

Fixpoint valid_only (l : list (option float)) : list float :=
  match l with
  | [] => []
  | Some d :: l' => d :: valid_only l'
  | None :: l' => valid_only l'
  end.

(** The builtins [sum], [min] and [max] on a list of floats; [sum] adds
    from the left, starting from zero, without the compensation of the
    rounding errors that recent interpreters apply. *)
Definition sum_floats (l : list float) : float := fold_left add l (of_int 0).
Definition min2 (a b : float) : float := if ltb b a then b else a.
Definition min_floats (x : float) (l : list float) : float := fold_left min2 l x.
Definition max_floats (x : float) (l : list float) : float := fold_left max2 l x.

(** [get_workflow_metrics()]: [None] is the empty dictionary returned for
    an empty trace store. *)
Definition get_workflow_metrics (t : tracer) : option metrics :=
  match trace_data t with
  | [] => None
  | _ :: _ =>
      let traces := values (trace_data t) in
      let total_traces := Z.of_nat (List.length traces) in
      let successful_traces := filter (fun tr => negb (has_error tr)) traces in
      let failed_traces := filter has_error traces in
      let durations := map _calculate_duration traces in
      let valid_durations := valid_only durations in
      Some (mkMetrics
              total_traces
              (if 0 <? total_traces
               then int_truediv (Z.of_nat (List.length successful_traces)) total_traces
               else of_int 0)
              (if 0 <? total_traces
               then int_truediv (Z.of_nat (List.length failed_traces)) total_traces
               else of_int 0)
              (match valid_durations with
               | [] => of_int 0
               | _ :: _ => div (sum_floats valid_durations)
                               (of_int (Z.of_nat (List.length valid_durations)))
               end)
              (match valid_durations with
               | [] => of_int 0
               | d :: l => min_floats d l
               end)
              (match valid_durations with
               | [] => of_int 0
               | d :: l => max_floats d l
               end)
              (sum_Z (map (fun tr => Z.of_nat (List.length (workflow_steps tr))) traces)))
  end.

(** *** Export *)

Section WithFiles.

Variable clock : nat -> datetime.

(** What the file system answers: the exception raised by
    [os.makedirs(d, exist_ok=True)] for a non-empty [d], and the one raised
    while the document is written to a path, if any. *)
Variable makedirs_fails : string -> option exn.
Variable write_fails : string -> export_doc -> option exn.

Definition is_slash (c : ascii) : bool := char_eqb c "/".

Fixpoint drop_while (f : ascii -> bool) (l : list ascii) : list ascii :=
  match l with
  | c :: l' => if f c then drop_while f l' else l
  | [] => []
  end.

(** [os.path.dirname(p)] *)
Definition dirname (p : string) : string :=
  let head_rev := drop_while (fun c => negb (is_slash c)) (rev (list_ascii_of_string p)) in
  match drop_while is_slash head_rev with
  | [] => string_of_list_ascii (rev head_rev)
  | stripped => string_of_list_ascii (rev stripped)
  end.

Definition makedirs (d : string) : M unit :=
  if String.eqb d "" then
    raise (FileNotFoundError ("[Errno 2] No such file or directory: " ++ repr ""))
  else
    match makedirs_fails d with
    | Some e => raise e
    | None => ret tt
    end.

Definition write_json (path : string) (doc : export_doc) : M unit :=
  match write_fails path doc with
  | Some e => raise e
  | None => fun w => (inr tt, mkWorld (self w) (clock_reads w) (files w ++ [(path, doc)]))
  end.

Definition export_trace_to_json (trace_id0 file_path : option string) : M bool :=
  t <- get_self ;;
  match get_trace t trace_id0 with
  | None => ret false
  | Some tr =>
      let path :=
        match file_path with
        | Some p =>
            if truthy file_path then p
            else "output/"
                   ++ match (if truthy trace_id0 then trace_id0 else current_trace_id t) with
                      | Some i => i
                      | None => "None"
                      end
                   ++ "_reconciliation_enhanced.json"
        | None =>
            "output/"
              ++ match (if truthy trace_id0 then trace_id0 else current_trace_id t) with
                 | Some i => i
                 | None => "None"
                 end
              ++ "_reconciliation_enhanced.json"
        end in
      makedirs (dirname path) ;;;
      ts <- now clock ;;
      let enhanced_export :=
        mkExport tr (get_workflow_metrics t) ts "reconciliation_enhanced_tracing" in
      try_except (write_json path enhanced_export ;;; ret true)
                 (fun _ => ret false)
  end.

End WithFiles.

End Tracer.

(** ** Notions used to state the properties *)

Module Notions.
Import PyStr PyFloat Py FloatText PyDict PyTime Extract Tracer.

(** The state as [_log_thinking] returns it. *)
Definition logged (state : ReconciliationState) (step_name thinking_text : string)
  : ReconciliationState :=
  set_thinking_log (set step_name thinking_text (thinking_log state)) state.

(** The step record that [_log_thinking] appends at time [ts]. *)
Definition step_of (state : ReconciliationState) (step_name thinking_text : string)
    (ts : datetime) : step_record :=
  mkStep step_name ts thinking_text
    (mkSnapshot (workflow_step state) (invoice_amount state)
                (spreadsheet_amount state) (verdict state)).

(** The states that the three nodes return. *)
Definition after_parse (state : ReconciliationState) : ReconciliationState :=
  logged (fst (parse_stage state)) "parsing" (snd (parse_stage state)).
Definition after_compare (state : ReconciliationState) : ReconciliationState :=
  logged (fst (compare_stage state)) "comparison" (snd (compare_stage state)).
Definition after_verdict (state : ReconciliationState) : ReconciliationState :=
  logged (fst (verdict_stage state)) "verdict" (snd (verdict_stage state)).

(** The state a run starts from. *)
Definition initial_state (invoice_amount0 spreadsheet_amount0 trace_id0 : string)
  : ReconciliationState :=
  mkState invoice_amount0 spreadsheet_amount0 "" "" [] trace_id0 "" "".

(** The identifier that [_create_trace_id] makes in the world [w]. *)
Definition fresh_id (clock : nat -> datetime) (w : world) : string :=
  "reconciliation_trace_" ++ strftime_compact (clock (clock_reads w)).

(** The trace [tr] is registered under [id] and [id] is the current
    trace. *)
Definition running (id : string) (tr : trace) (w : world) : Prop :=
  current_trace_id (self w) = Some id /\ truthy (Some id) = true
  /\ get id (trace_data (self w)) = Some tr.

(** The current trace, when there is one, is in the store: what every
    method keeps true. *)
Definition registered (t : tracer) : bool :=
  match current_trace_id t with
  | Some id => if truthy (Some id) then mem id (trace_data t) else true
  | None => true
  end.

(** The stage names in the snapshots of a trace. *)
Definition snapshot_steps (tr : trace) : list string :=
  map (fun r => snap_workflow_step (state_snapshot r)) (workflow_steps tr).

(** A trace is sealed when its end time and its result are set. *)
Definition sealed (tr : trace) : bool :=
  match end_time tr, result tr with
  | Some _, Some _ => true
  | _, _ => false
  end.

(** Every character of [s] is in the class [f]. *)
Fixpoint all_chars (f : ascii -> bool) (s : string) : bool :=
  match s with
  | EmptyString => true
  | String c s' => f c && all_chars f s'
  end.

(** The repetition counts that a quantifier allows. *)
Definition quant_ok (q : Regex.quant) (n : nat) : Prop :=
  match q with
  | Regex.One => n = 1%nat
  | Regex.Opt => (n <= 1)%nat
  | Regex.Star => True
  | Regex.Plus => (1 <= n)%nat
  end.

(** The texts that a pattern denotes. *)
Fixpoint in_lang (p : Regex.pattern) (t : string) : Prop :=
  match p with
  | [] => t = ""
  | (cls, q) :: p' =>
      exists u v, t = u ++ v /\ all_chars cls u = true
                  /\ quant_ok q (String.length u) /\ in_lang p' v
  end.

(** The characters of a number: sign, digit or point. *)
Definition is_numeric (c : ascii) : bool :=
  Regex.is_sign c || is_digit c || Regex.is_dot c.

(** A text that starts with a digit or a point. *)
Definition starts_unsigned (s : string) : bool :=
  match s with
  | String c _ => is_digit c || Regex.is_dot c
  | EmptyString => false
  end.

(** The cleaning that [_extract_number] applies before the search. *)
Definition cleaned (text : string) : string :=
  strip (replace pound "" (replace euro "" (replace "," "" (replace "$" "" text)))).

(** Unfolds the operations of the monad of methods. *)
Ltac run_monad :=
  cbv [mbind ret raise try_except get_self put_self now set_trace_data
       set_current_trace_id set_live_thinking lookup_trace update_trace
       self clock_reads files trace_data current_trace_id live_thinking].

(** The number of elements of [l] that satisfy [f]. *)
Fixpoint count {A : Type} (f : A -> bool) (l : list A) : Z :=
  match l with
  | [] => 0
  | x :: l' => (if f x then 1 else 0) + count f l'
  end.

End Notions.

(** ** Plain texts *)

Module TextNotions.
Import PyStr Extract Notions.

Definition is_ascii_char (c : ascii) : bool := (nat_of_ascii c <? 128)%nat.

(** A text of ASCII characters. *)
Definition is_ascii (s : string) : bool := all_chars is_ascii_char s.











End TextNotions.

(** ** The live state of the tracer *)

Module TracerState.
Import PyStr PyFloat Py FloatText PyDict PyTime Extract Tracer.

(** The dictionary returned by [get_live_workflow_state]. *)
Record live_workflow_state : Type := mkLive {
  live_current_trace_id : option string;
  live_live_thinking : dict string;
  workflow_status : string;
  total_traces : Z;
  current_metrics : option metrics
}.

Definition get_live_workflow_state (t : tracer) : live_workflow_state :=
  mkLive (current_trace_id t)
         (live_thinking t)
         (if truthy (current_trace_id t) then "running" else "idle")
         (Z.of_nat (List.length (trace_data t)))
         (get_workflow_metrics t).

End TracerState.

(** ** The caller: the reconciliation step of the application *)

Module App.
Import PyStr PyFloat Py FloatText PyDict PyTime Regex Extract Tracer.

Definition is_dollar (c : ascii) : bool := char_eqb c "$".
Definition is_digit_or_comma (c : ascii) : bool := is_digit c || char_eqb c ",".

(** The pattern [r'\$[\d,]+\.?\d*'] of the application. *)
Definition amount_pattern : pattern :=
  [(is_dollar, One); (is_digit_or_comma, Plus); (is_dot, Opt); (is_digit, Star)].

(** The amount that the application takes from the result of the
    spreadsheet agent: the first match of the pattern, the text "0" when
    there is none or when the result is empty, [None] or not a string
    ([None] here stands for both). *)
Definition spreadsheet_amount_of (spreadsheet_result : option string) : string :=
  match spreadsheet_result with
  | Some r =>
      if truthy spreadsheet_result then
        match findall amount_pattern r with
        | m :: _ => m
        | [] => "0"
        end
      else "0"
  | None => "0"
  end.

Section WithClock.

Variable clock : nat -> datetime.

(** The text shown as the reconciliation result, for two amounts that are
    strings: the reconciliation runs only when neither is the text "0". *)
Definition reconciliation_step (invoice_amount0 spreadsheet_amount0 : string) : M string :=
  if negb (String.eqb invoice_amount0 "0") && negb (String.eqb spreadsheet_amount0 "0") then
    try_except (reconcile_amounts clock invoice_amount0 spreadsheet_amount0)
               (fun e => ret ("Reconciliation failed: " ++ exn_str e))
  else if negb (String.eqb invoice_amount0 "0") then
    ret ("Invoice amount found: " ++ invoice_amount0
           ++ ". No spreadsheet data available for comparison.")
  else if negb (String.eqb spreadsheet_amount0 "0") then
    ret ("Spreadsheet amount found: " ++ spreadsheet_amount0
           ++ ". No invoice data available for comparison.")
  else ret "No data to reconcile".

End WithClock.

End App.

(** ** The spreadsheet agent: what it hands to the reconciliation *)

Module Spreadsheet.
Import PyStr PyFloat Py FloatText Extract.

(** [_is_convertible_to_number(value)] for a string [value] that is a
    plain text. *)
Definition _is_convertible_to_number (value : string) : outcome bool :=
  if String.eqb value "" then inr false
  else
    let cleaned := strip (replace "%" "" (replace "," "" (replace "$" "" value))) in
    if negb (String.eqb cleaned "") && negb (String.eqb cleaned "nan") then
      match float_of_str cleaned with
      | inr _ => inr true
      | inl e =>
          if String.eqb (exn_class e) "ValueError"
             || String.eqb (exn_class e) "AttributeError"
          then inr false
          else inl e
      end
    else inr false.

(** The text [f"${total_amount:,.2f}"] that [extract_total_amount_node]
    stores as [total_amount]. *)
Definition total_amount_text (total_amount : float) : string :=
  "$" ++ format_2f true total_amount.

End Spreadsheet.

(** ** Further notions *)

Module MoreNotions.
Import PyStr PyFloat Py FloatText PyDict PyTime Regex Extract Tracer Notions.

(** The digits of a text, in order. *)
Fixpoint digits_of (s : string) : string :=
  match s with
  | EmptyString => EmptyString
  | String c s' => if is_digit c then String c (digits_of s') else digits_of s'
  end.

Section WithClock.

Variable clock : nat -> datetime.

(** The three states of the run on [a] and [b] in the world [w]. *)
Definition run_parsed (a b : string) (w : world) : ReconciliationState :=
  after_parse (initial_state a b (fresh_id clock w)).
Definition run_compared (a b : string) (w : world) : ReconciliationState :=
  after_compare (run_parsed a b w).
Definition run_final (a b : string) (w : world) : ReconciliationState :=
  after_verdict (run_compared a b w).

(** The trace that the run leaves: the clock is read six times, for the
    identifier, the start, the three steps and the end. *)
Definition run_trace (a b : string) (w : world) : trace :=
  let r := clock_reads w in
  let s0 := initial_state a b (fresh_id clock w) in
  let s1 := run_parsed a b w in
  let s2 := run_compared a b w in
  let s3 := run_final a b w in
  mkTrace [step_of s1 "parsing" (snd (parse_stage s0)) (clock (2 + r)%nat);
           step_of s2 "comparison" (snd (compare_stage s1)) (clock (3 + r)%nat);
           step_of s3 "verdict" (snd (verdict_stage s2)) (clock (4 + r)%nat)]
          (clock (1 + r)%nat) (Some (clock (5 + r)%nat)) (Some (verdict s3)) []
          (Some (mkFinal (workflow_step s3) (negb (String.eqb (error s3) ""))
                         (verdict s3) (reconciliation_result s3)))
          None.

(** The world that the run leaves. *)
Definition run_world (a b : string) (w : world) : world :=
  let s0 := initial_state a b (fresh_id clock w) in
  mkWorld
    (mkTracer (set (fresh_id clock w) (run_trace a b w) (trace_data (self w)))
              (Some (fresh_id clock w))
              [("parsing", snd (parse_stage s0));
               ("comparison", snd (compare_stage (run_parsed a b w)));
               ("verdict", snd (verdict_stage (run_compared a b w)))])
    (6 + clock_reads w)%nat
    (files w).

(** The world after the runs on the pairs of [inputs], in order. *)
Fixpoint run_all (inputs : list (string * string)) (w : world) : world :=
  match inputs with
  | [] => w
  | (a, b) :: rest => run_all rest (snd (reconcile_amounts clock a b w))
  end.

End WithClock.

(** The durations of the traces that have an end. *)
Definition valid_durations (t : tracer) : list float :=
  valid_only (map _calculate_duration (values (trace_data t))).

End MoreNotions.

(** ** Notions of the store *)

Module StoreNotions.
Import PyStr PyFloat Py FloatText PyDict PyTime Regex Extract Tracer Notions.

(** A trace as a run leaves it: sealed, without error, with three
    steps. *)
Definition complete (tr : trace) : bool :=
  sealed tr && negb (has_error tr) && (List.length (workflow_steps tr) =? 3)%nat.

Definition all_complete (t : tracer) : bool :=
  forallb complete (values (trace_data t)).

(** The file that the export writes when no path is given. *)
Definition default_export_path (id : string) : string :=
  "output/" ++ id ++ "_reconciliation_enhanced.json".

(** No character of the text is a slash. *)
Definition no_slash (s : string) : bool :=
  all_chars (fun c => negb (is_slash c)) s.

End StoreNotions.

(** ** Notions of floats *)

Module FloatNotions.
Import PyFloat.

Definition is_nan (x : float) : bool :=
  match x with S754_nan => true | _ => false end.

(** Neither an infinity nor a NaN. *)
Definition is_finite (x : float) : bool :=
  match x with S754_zero _ | S754_finite _ _ _ => true | _ => false end.

End FloatNotions.

(** ** Notions of amounts in text *)

Module AmountNotions.
Import PyStr PyFloat FloatText.

Definition sign_of (x : float) : bool :=
  match x with
  | S754_zero s | S754_infinity s | S754_finite s _ _ => s
  | S754_nan => false
  end.

(** The magnitude of the finite [x] in cents, rounded to the nearest
    (ties to even). *)
Definition cents (x : float) : Z :=
  match x with
  | S754_finite _ m e => let '(n, d) := exact m e in round_half_even (n * 100) d
  | _ => 0
  end.

(** The float nearest to [c] hundredths, with the sign [s]. *)
Definition of_cents (s : bool) (c : Z) : float :=
  if c =? 0 then zero s else of_dec s c (-2).

(** The value of a run of digits read after the value [acc]. *)
Fixpoint digits_val (u : string) (acc : Z) : Z :=
  match u with
  | EmptyString => acc
  | String c u' => digits_val u' (10 * acc + digit_val c)
  end.

Fixpoint uint_val (d : Decimal.uint) (acc : Z) : Z :=
  match d with
  | Decimal.Nil => acc
  | Decimal.D0 l => uint_val l (10 * acc + 0)
  | Decimal.D1 l => uint_val l (10 * acc + 1)
  | Decimal.D2 l => uint_val l (10 * acc + 2)
  | Decimal.D3 l => uint_val l (10 * acc + 3)
  | Decimal.D4 l => uint_val l (10 * acc + 4)
  | Decimal.D5 l => uint_val l (10 * acc + 5)
  | Decimal.D6 l => uint_val l (10 * acc + 6)
  | Decimal.D7 l => uint_val l (10 * acc + 7)
  | Decimal.D8 l => uint_val l (10 * acc + 8)
  | Decimal.D9 l => uint_val l (10 * acc + 9)
  end.

(** The two characters of a number below 100 are digits with that
    value. *)
Definition two_digits_ok (i : nat) : bool :=
  match pad0 2 (Z.of_nat i) with
  | String d1 (String d2 EmptyString) =>
      is_digit d1 && is_digit d2 && (10 * digit_val d1 + digit_val d2 =? Z.of_nat i)
  | _ => false
  end.

End AmountNotions.

(** * Properties *)

(** ** Strings *)

Module PyStrFacts.
Import PyStr.

Lemma prefix_b_app (p r : string) : prefix_b p (p ++ r) = true.
Proof.
  induction p as [|c p IH]; simpl; [reflexivity|].
  unfold char_eqb. now rewrite Ascii.eqb_refl.
Qed.

Lemma prefix_b_inv (p s : string) :
  prefix_b p s = true -> exists r, s = p ++ r.
Proof.
  revert s. induction p as [|c p IH]; intros s H.
  - now exists s.
  - destruct s as [|d s]; simpl in H; [discriminate|].
    apply andb_prop in H. destruct H as [Hc Hp].
    apply Ascii.eqb_eq in Hc. subst d.
    destruct (IH _ Hp) as [r ->]. now exists r.
Qed.

Lemma str_in_intro (n a b : string) : str_in n (a ++ n ++ b) = true.
Proof.
  induction a as [|c a IH].
  - simpl. destruct (n ++ b) eqn:E; simpl.
    + destruct n; [reflexivity | discriminate].
    + rewrite <- E, prefix_b_app. reflexivity.
  - change (str_in n (String c (a ++ n ++ b)) = true). simpl.
    rewrite IH. apply orb_true_r.
Qed.

Lemma str_in_inv (n h : string) :
  str_in n h = true -> exists a b, h = a ++ n ++ b.
Proof.
  induction h as [|c h IH]; simpl; intros H.
  - rewrite orb_false_r in H. destruct (prefix_b_inv _ _ H) as [r ->].
    now exists "", r.
  - apply orb_prop in H. destruct H as [H|H].
    + destruct (prefix_b_inv _ _ H) as [r ->]. now exists "", r.
    + destruct (IH H) as (a & b & ->). now exists (String c a), b.
Qed.

Lemma append_assoc (a b c : string) : (a ++ b) ++ c = a ++ (b ++ c).
Proof. induction a as [|x a IH]; simpl; [reflexivity | now rewrite IH]. Qed.

(** A text that contains [MISMATCH] contains [MATCH]. *)
Lemma mismatch_contains_match (s : string) :
  str_in "MISMATCH" s = true -> str_in "MATCH" s = true.
Proof.
  intros H. destruct (str_in_inv _ _ H) as (a & b & ->).
  change ("MISMATCH" ++ b) with ("MIS" ++ "MATCH" ++ b).
  rewrite <- append_assoc. apply str_in_intro.
Qed.

End PyStrFacts.

(** ** Floats *)

Module PyFloatFacts.
Import PyFloat.

(** A number that is at most zero is not greater than zero. *)
Lemma leb_zero_not_gtb (x : float) :
  leb x (of_int 0) = true -> gtb x (of_int 0) = false.
Proof.
  destruct x as [s|s| |s m e]; try destruct s; simpl; intros H;
    try reflexivity; try discriminate.
Qed.

Lemma leb_zero_tolerance : leb (of_int 0) Tracer.tolerance = true.
Proof. reflexivity. Qed.

(** Rounding a non-negative mantissa never yields a NaN. *)
Lemma shr_1_nonneg (mrs : shr_record) : 0 <= shr_m mrs -> 0 <= shr_m (shr_1 mrs).
Proof.
  destruct mrs as [m r s]. destruct m as [|p|p]; simpl; intros H; try lia;
    destruct p; simpl; lia.
Qed.

Lemma iter_pos_nonneg (p : positive) :
  forall mrs, 0 <= shr_m mrs -> 0 <= shr_m (iter_pos shr_1 p mrs).
Proof.
  induction p as [p IH|p IH|]; intros mrs H; simpl.
  - apply IH, IH. now apply shr_1_nonneg.
  - now apply IH, IH.
  - now apply shr_1_nonneg.
Qed.

Lemma shr_fexp_nonneg (m e : Z) (l : location) :
  0 <= m -> 0 <= shr_m (fst (shr_fexp prec emax m e l)).
Proof.
  intros H. unfold shr_fexp, shr.
  assert (H0 : 0 <= shr_m (shr_record_of_loc m l)) by (destruct l as [|[]]; exact H).
  destruct (fexp prec emax (Zdigits2 m + e) - e); simpl; auto.
  now apply iter_pos_nonneg.
Qed.

Lemma binary_round_aux_not_nan (s : bool) (m e : Z) (l : location) :
  0 <= m -> binary_round_aux prec emax s m e l <> S754_nan.
Proof.
  intros H. unfold binary_round_aux.
  pose proof (shr_fexp_nonneg m e l H) as H1.
  destruct (shr_fexp prec emax m e l) as [mrs' e']. cbn [fst] in H1.
  assert (H2 : 0 <= round_nearest_even (shr_m mrs') (loc_of_shr_record mrs')).
  { unfold round_nearest_even. destruct (loc_of_shr_record mrs') as [|[]]; try lia.
    destruct (Z.even (shr_m mrs')); lia. }
  pose proof (shr_fexp_nonneg _ e' loc_Exact H2) as H3.
  destruct (shr_fexp prec emax _ e' loc_Exact) as [mrs'' e'']. cbn [fst] in H3.
  destruct (shr_m mrs'') as [|p|p]; [discriminate| |lia].
  destruct (e'' <=? emax - prec); discriminate.
Qed.

Lemma of_ratio_not_nan (s : bool) (n d : Z) : of_ratio s n d <> S754_nan.
Proof.
  unfold of_ratio. destruct n as [|n|n]; try discriminate.
  destruct d as [|d|d]; try discriminate.
  unfold SFdiv_core_binary.
  set (m' := match _ with Z0 => _ | Zpos _ => _ | Zneg _ => _ end).
  assert (Hm : 0 <= m').
  { subst m'. destruct (_ - _ - _)%Z; try lia. apply Z.shiftl_nonneg. lia. }
  pose proof (Z.div_pos m' (Z.pos d) Hm ltac:(lia)) as Hq.
  unfold Z.div in Hq.
  destruct (Z.div_eucl m' (Z.pos d)) as [q r].
  now apply binary_round_aux_not_nan.
Qed.

Lemma of_dec_not_nan (s : bool) (m e : Z) : of_dec s m e <> S754_nan.
Proof. unfold of_dec. destruct (0 <=? e); apply of_ratio_not_nan. Qed.


End PyFloatFacts.

(** ** Dictionaries *)

Module PyDictFacts.
Import PyDict.

Lemma get_set_same {V : Type} (k : string) (v : V) (d : dict V) :
  get k (set k v d) = Some v.
Proof.
  induction d as [|[k' v'] d IH]; simpl.
  - now rewrite String.eqb_refl.
  - destruct (String.eqb k k') eqn:E; simpl; rewrite ?String.eqb_refl, ?E; auto.
Qed.

Lemma get_set_other {V : Type} (k k' : string) (v : V) (d : dict V) :
  k <> k' -> get k (set k' v d) = get k d.
Proof.
  intros Hne. induction d as [|[k0 v0] d IH]; simpl.
  - destruct (String.eqb_spec k k'); [contradiction | reflexivity].
  - destruct (String.eqb_spec k' k0) as [->|Hk]; simpl.
    + destruct (String.eqb_spec k k0); [contradiction | reflexivity].
    + destruct (String.eqb k k0); auto.
Qed.

Lemma set_set {V : Type} (k : string) (v v' : V) (d : dict V) :
  set k v (set k v' d) = set k v d.
Proof.
  induction d as [|[k0 v0] d IH]; simpl.
  - now rewrite String.eqb_refl.
  - destruct (String.eqb k k0) eqn:E; simpl; rewrite ?String.eqb_refl, ?E; congruence.
Qed.

Lemma set_nonempty {V : Type} (k : string) (v : V) (d : dict V) : set k v d <> [].
Proof. destruct d as [|[k0 v0] d]; simpl; [|destruct (String.eqb k k0)]; discriminate. Qed.

Lemma mem_set_same {V : Type} (k : string) (v : V) (d : dict V) :
  mem k (set k v d) = true.
Proof. unfold mem. now rewrite get_set_same. Qed.

End PyDictFacts.

(** ** The run of the workflow *)

Module RunFacts.
Import PyStr PyFloat Py FloatText PyDict PyTime Extract Tracer Notions PyDictFacts.

Section WithClock.

Variable clock : nat -> datetime.

Lemma fresh_id_truthy (w : world) : truthy (Some (fresh_id clock w)) = true.
Proof. reflexivity. Qed.

(** [_create_trace_id] registers an empty trace and makes it current. *)
Lemma create_running (w : world) :
  exists w1,
    _create_trace_id clock w = (inr (fresh_id clock w), w1)
    /\ running (fresh_id clock w)
         (mkTrace [] (clock (S (clock_reads w))) None None [] None None) w1
    /\ files w1 = files w.
Proof.
  destruct w as [[td cur live] reads fl].
  eexists. split; [|split].
  - unfold _create_trace_id. run_monad. reflexivity.
  - unfold running, fresh_id. cbn [self current_trace_id trace_data clock_reads].
    split; [reflexivity|]. split; [reflexivity|]. apply get_set_same.
  - reflexivity.
Qed.

(** With a current trace, [_log_thinking] appends one step to it. *)
Lemma log_running (id : string) (tr : trace) (w : world)
    (state : ReconciliationState) (step_name thinking_text : string) :
  running id tr w ->
  exists w' ts,
    _log_thinking clock state step_name thinking_text w
      = (inr (logged state step_name thinking_text), w')
    /\ running id
         (set_workflow_steps
            (workflow_steps tr
               ++ [step_of (logged state step_name thinking_text) step_name thinking_text ts])
            tr) w'
    /\ files w' = files w.
Proof.
  destruct w as [[td cur live] reads fl].
  intros (Hcur & Htr & Hget). cbn [self current_trace_id trace_data] in Hcur, Hget.
  subst cur.
  eexists. exists (clock reads). split; [|split].
  - unfold _log_thinking. run_monad. rewrite Htr. cbv beta iota.
    repeat (rewrite Hget; cbv beta iota). reflexivity.
  - unfold running. cbn [self current_trace_id trace_data].
    split; [reflexivity|]. split; [assumption|]. apply get_set_same.
  - reflexivity.
Qed.

Lemma mbind_ok {A B : Type} (m : M A) (f : A -> M B) (w w' : world) (a : A) :
  m w = (inr a, w') -> mbind m f w = f a w'.
Proof. intros H. unfold mbind. now rewrite H. Qed.

Lemma try_except_ok {A : Type} (m : M A) (h : exn -> M A) (w w' : world) (a : A) :
  m w = (inr a, w') -> try_except m h w = (inr a, w').
Proof. intros H. unfold try_except. now rewrite H. Qed.

(** Each node returns the state of its stage, logged, and appends one
    step to the current trace. *)
Lemma parse_node_running (id : string) (tr : trace) (w : world)
    (state : ReconciliationState) :
  running id tr w ->
  exists w' ts,
    parse_amounts_node clock state w = (inr (after_parse state), w')
    /\ running id
         (set_workflow_steps
            (workflow_steps tr
               ++ [step_of (after_parse state) "parsing" (snd (parse_stage state)) ts]) tr) w'
    /\ files w' = files w.
Proof.
  intros H. unfold parse_amounts_node, after_parse.
  destruct (parse_stage state) as [s th]. cbn [fst snd]. now apply log_running.
Qed.

Lemma compare_node_running (id : string) (tr : trace) (w : world)
    (state : ReconciliationState) :
  running id tr w ->
  exists w' ts,
    compare_amounts_node clock state w = (inr (after_compare state), w')
    /\ running id
         (set_workflow_steps
            (workflow_steps tr
               ++ [step_of (after_compare state) "comparison" (snd (compare_stage state)) ts])
            tr) w'
    /\ files w' = files w.
Proof.
  intros H. unfold compare_amounts_node, after_compare.
  destruct (compare_stage state) as [s th]. cbn [fst snd]. now apply log_running.
Qed.

Lemma verdict_node_running (id : string) (tr : trace) (w : world)
    (state : ReconciliationState) :
  running id tr w ->
  exists w' ts,
    generate_verdict_node clock state w = (inr (after_verdict state), w')
    /\ running id
         (set_workflow_steps
            (workflow_steps tr
               ++ [step_of (after_verdict state) "verdict" (snd (verdict_stage state)) ts])
            tr) w'
    /\ files w' = files w.
Proof.
  intros H. unfold generate_verdict_node, after_verdict.
  destruct (verdict_stage state) as [s th]. cbn [fst snd]. now apply log_running.
Qed.

(** One step of the graph. *)
Lemma run_from_node (g : StateGraph) (fuel : nat) (name : string)
    (state : ReconciliationState) (f : ReconciliationState -> M ReconciliationState) :
  get name (nodes g) = Some f ->
  run_from g (S fuel) (Node name) state
  = mbind (f state)
      (fun s' =>
         mbind (run_from g fuel (match get name (edges g) with Some t => t | None => END end) s')
               (fun rest => ret (s' :: rest))).
Proof. intros H. simpl. rewrite H. reflexivity. Qed.

Lemma node_parse :
  get "parse_amounts" (nodes (_build_workflow clock)) = Some (parse_amounts_node clock).
Proof. reflexivity. Qed.
Lemma node_compare :
  get "compare_amounts" (nodes (_build_workflow clock)) = Some (compare_amounts_node clock).
Proof. reflexivity. Qed.
Lemma node_verdict :
  get "generate_verdict" (nodes (_build_workflow clock)) = Some (generate_verdict_node clock).
Proof. reflexivity. Qed.
Lemma edge_parse :
  get "parse_amounts" (edges (_build_workflow clock)) = Some (Node "compare_amounts").
Proof. reflexivity. Qed.
Lemma edge_compare :
  get "compare_amounts" (edges (_build_workflow clock)) = Some (Node "generate_verdict").
Proof. reflexivity. Qed.
Lemma edge_verdict :
  get "generate_verdict" (edges (_build_workflow clock)) = Some END.
Proof. reflexivity. Qed.

(** The graph, from the comparison on: two nodes run and the graph ends. *)
Lemma run_from_compare (id : string) (tr : trace) (w : world)
    (state : ReconciliationState) (fuel : nat) :
  running id tr w ->
  let s2 := after_compare state in
  let s3 := after_verdict s2 in
  exists w' t2 t3,
    run_from (_build_workflow clock) (S (S fuel)) (Node "compare_amounts") state w
      = (inr [s2; s3], w')
    /\ running id
         (set_workflow_steps
            (workflow_steps tr
               ++ [step_of s2 "comparison" (snd (compare_stage state)) t2;
                   step_of s3 "verdict" (snd (verdict_stage s2)) t3]) tr) w'
    /\ files w' = files w.
Proof.
  intros H s2 s3.
  destruct (compare_node_running _ _ _ state H) as (w2 & t2 & E2 & R2 & F2).
  destruct (verdict_node_running _ _ _ s2 R2) as (w3 & t3 & E3 & R3 & F3).
  exists w3, t2, t3. split; [|split].
  - rewrite (run_from_node _ _ _ _ _ node_compare).
    rewrite (mbind_ok _ _ _ _ _ E2).
    rewrite edge_compare.
    rewrite (run_from_node _ _ _ _ _ node_verdict).
    rewrite edge_verdict.
    unfold mbind at 1. rewrite (mbind_ok _ _ _ _ _ E3).
    destruct fuel; reflexivity.
  - cbn [workflow_steps set_workflow_steps] in R3.
    rewrite <- app_assoc in R3. exact R3.
  - congruence.
Qed.

(** The whole graph: the three nodes run in order and the graph ends. *)
Lemma stream_workflow (id : string) (tr : trace) (w : world)
    (state : ReconciliationState) :
  running id tr w ->
  let s1 := after_parse state in
  let s2 := after_compare s1 in
  let s3 := after_verdict s2 in
  exists w' t1 t2 t3,
    stream (_build_workflow clock) state w = (inr [s1; s2; s3], w')
    /\ running id
         (set_workflow_steps
            (workflow_steps tr
               ++ [step_of s1 "parsing" (snd (parse_stage state)) t1;
                   step_of s2 "comparison" (snd (compare_stage s1)) t2;
                   step_of s3 "verdict" (snd (verdict_stage s2)) t3]) tr) w'
    /\ files w' = files w.
Proof.
  intros H s1 s2 s3.
  destruct (parse_node_running _ _ _ state H) as (w1 & t1 & E1 & R1 & F1).
  destruct (run_from_compare _ _ _ s1 22 R1) as (w3 & t2 & t3 & E3 & R3 & F3).
  exists w3, t1, t2, t3. split; [|split].
  - change (stream (_build_workflow clock) state)
      with (run_from (_build_workflow clock) 25 (Node "parse_amounts") state).
    rewrite (run_from_node _ _ _ _ _ node_parse).
    rewrite (mbind_ok _ _ _ _ _ E1).
    rewrite edge_parse.
    rewrite (mbind_ok _ _ _ _ _ E3). reflexivity.
  - cbn [workflow_steps set_workflow_steps] in R3.
    rewrite <- app_assoc in R3. exact R3.
  - congruence.
Qed.

(** A field of the current trace is assigned. *)
Lemma update_running (id : string) (tr : trace) (w : world) (f : trace -> trace) :
  running id tr w ->
  exists w',
    update_trace (Some id) f w = (inr tt, w')
    /\ running id (f tr) w' /\ files w' = files w
    /\ clock_reads w' = clock_reads w.
Proof.
  destruct w as [[td cur live] reads fl].
  intros (Hcur & Htr & Hget). cbn [self current_trace_id trace_data] in Hcur, Hget.
  subst cur. eexists. split; [|split; [|split]].
  - run_monad. rewrite Hget. reflexivity.
  - unfold running. cbn [self current_trace_id trace_data].
    split; [reflexivity|]. split; [assumption|]. apply get_set_same.
  - reflexivity.
  - reflexivity.
Qed.

(** The run of [reconcile_amounts]: the trace is created, the three
    nodes run, the trace is sealed with the verdict, which is returned. *)
Lemma reconcile_run (w : world) (a b : string) :
  let id := fresh_id clock w in
  let s0 := initial_state a b id in
  let s1 := after_parse s0 in
  let s2 := after_compare s1 in
  let s3 := after_verdict s2 in
  exists w1 w2 w' t0 t1 t2 t3 t4,
    _create_trace_id clock w = (inr id, w1)
    /\ stream (_build_workflow clock) s0
         (mkWorld (mkTracer (trace_data (self w1)) (current_trace_id (self w1)) empty_thinking)
                  (clock_reads w1) (files w1))
       = (inr [s1; s2; s3], w2)
    /\ current_trace_id (self w2) = Some id
    /\ reconcile_amounts clock a b w = (inr (verdict s3), w')
    /\ running id
         (mkTrace [step_of s1 "parsing" (snd (parse_stage s0)) t1;
                   step_of s2 "comparison" (snd (compare_stage s1)) t2;
                   step_of s3 "verdict" (snd (verdict_stage s2)) t3]
                  t0 (Some t4) (Some (verdict s3)) []
                  (Some (mkFinal (workflow_step s3) (negb (String.eqb (error s3) ""))
                                 (verdict s3) (reconciliation_result s3)))
                  None) w'
    /\ files w' = files w.
Proof.
  intros id s0 s1 s2 s3.
  destruct (create_running w) as (w1 & E1 & R1 & F1).
  set (w1' := mkWorld (mkTracer (trace_data (self w1)) (current_trace_id (self w1))
                                empty_thinking) (clock_reads w1) (files w1)).
  assert (R1' : running id
                  (mkTrace [] (clock (S (clock_reads w))) None None [] None None) w1')
    by exact R1.
  destruct (stream_workflow _ _ _ s0 R1') as (w2 & t1 & t2 & t3 & E2 & R2 & F2).
  cbn [workflow_steps set_workflow_steps app start_time end_time result state_transitions
       final_state trace_error] in R2.
  destruct (update_running _ _ (mkWorld (self w2) (S (clock_reads w2)) (files w2))
              (set_end_time (Some (clock (clock_reads w2)))) R2)
    as (w3 & E3 & R3 & F3 & _).
  destruct (update_running _ _ w3 (set_result (Some (verdict s3))) R3)
    as (w4 & E4 & R4 & F4 & _).
  destruct (update_running _ _ w4
              (set_final_state
                 (Some (mkFinal (workflow_step s3) (negb (String.eqb (error s3) ""))
                                (verdict s3) (reconciliation_result s3)))) R4)
    as (w5 & E5 & R5 & F5 & _).
  exists w1, w2, w5, (clock (S (clock_reads w))), t1, t2, t3, (clock (clock_reads w2)).
  split; [exact E1|]. split; [exact E2|]. split; [apply R2|].
  split; [|split].
  - unfold reconcile_amounts.
    rewrite (mbind_ok _ _ _ _ _ E1).
    change ((set_live_thinking empty_thinking ;;; ?k) w1) with (k w1').
    apply try_except_ok.
    assert (Ei : invoke (_build_workflow clock) s0 w1' = (inr s3, w2)).
    { unfold invoke. rewrite (mbind_ok _ _ _ _ _ E2). reflexivity. }
    rewrite (mbind_ok _ _ _ _ _ Ei).
    destruct R2 as (Hc & Ht & Hg).
    unfold mbind at 1. unfold get_self at 1. cbv beta iota.
    rewrite Hc, Ht.
    unfold mbind at 1. unfold mbind at 1. unfold now at 1. cbv beta iota.
    unfold mbind at 1. rewrite E3.
    unfold mbind at 1. rewrite E4. rewrite E5. reflexivity.
  - exact R5.
  - subst w1'. cbn [files] in F2, F3. congruence.
Qed.

End WithClock.

End RunFacts.

(** ** The verdict and the comparison *)

Module DecisionFacts.
Import PyStr PyFloat Py FloatText PyDict PyTime Extract Tracer Notions.
Import PyStrFacts PyFloatFacts RunFacts.

(** The three stages leave [trace_id] alone and set [workflow_step] to
    their own name. *)
Lemma parse_stage_fields (s : ReconciliationState) :
  workflow_step (after_parse s) = "parse_amounts" /\ trace_id (after_parse s) = trace_id s.
Proof.
  unfold after_parse, parse_stage, parse_body, logged.
  destruct (_extract_number _) as [e|n1]; [split; reflexivity|].
  destruct (_extract_number _) as [e|n2]; split; reflexivity.
Qed.

Lemma compare_stage_fields (s : ReconciliationState) :
  workflow_step (after_compare s) = "compare_amounts"
  /\ trace_id (after_compare s) = trace_id s.
Proof.
  unfold after_compare, compare_stage, compare_body, logged.
  destruct (float_of_str _) as [e|x]; [split; reflexivity|].
  destruct (float_of_str _) as [e|y]; [split; reflexivity|].
  destruct (compare_core x y) as [[d p] m]. split; reflexivity.
Qed.

Lemma verdict_stage_fields (s : ReconciliationState) :
  workflow_step (after_verdict s) = "generate_verdict"
  /\ trace_id (after_verdict s) = trace_id s
  /\ error (after_verdict s) = error s
  /\ verdict (after_verdict s)
     = verdict_statement (fst (decide_verdict (reconciliation_result s)))
                         (snd (decide_verdict (reconciliation_result s)))
                         (reconciliation_result s).
Proof.
  unfold after_verdict, verdict_stage, verdict_body, logged.
  cbn [reconciliation_result set_workflow_step].
  destruct (decide_verdict (reconciliation_result s)) as [c r].
  repeat split; reflexivity.
Qed.

(** The verdict code is [YES] as soon as the summary contains [MATCH],
    and every summary that contains [MISMATCH] does. *)
Lemma decide_verdict_mismatch (summary : string) :
  str_in "MISMATCH" summary = true -> fst (decide_verdict summary) = "YES".
Proof.
  intros H. unfold decide_verdict.
  now rewrite (mismatch_contains_match _ H).
Qed.

(** The branch that yields [NO] is never taken. *)
Lemma decide_verdict_never_no (summary : string) :
  fst (decide_verdict summary) <> "NO".
Proof.
  unfold decide_verdict.
  destruct (str_in "MATCH" summary) eqn:Em; [discriminate|].
  destruct (str_in "MISMATCH" summary) eqn:Ei; [|discriminate].
  apply mismatch_contains_match in Ei. congruence.
Qed.

(** C1 (code defect).  On the summary that the comparison itself writes
    for the amounts 500 and 400, which contains [MISMATCH], the verdict
    stage answers [YES] with the rationale of a match: the test for
    [MATCH] comes first and succeeds on every text that contains
    [MISMATCH], so the code [NO] is never produced.  A summary without
    [MATCH] yields [INCONCLUSIVE]. *)
Theorem verdict_on_mismatch_summary :
  let summary :=
    "MISMATCH: Invoice amount $500.00 does not match spreadsheet amount $400.00 (difference: $100.00, 20.00%)" in
  str_in "MISMATCH" summary = true
  /\ decide_verdict summary
     = ("YES", "The amounts from the invoice and spreadsheet match within acceptable tolerance.")
  /\ (forall s, str_in "MISMATCH" s = true -> fst (decide_verdict s) = "YES")
  /\ (forall s, fst (decide_verdict s) <> "NO")
  /\ (forall s, str_in "MATCH" s = false -> fst (decide_verdict s) = "INCONCLUSIVE").
Proof.
  split; [reflexivity|]. split; [reflexivity|]. split; [|split].
  - exact decide_verdict_mismatch.
  - exact decide_verdict_never_no.
  - intros s H. unfold decide_verdict. rewrite H.
    destruct (str_in "MISMATCH" s) eqn:E; [|reflexivity].
    apply mismatch_contains_match in E. congruence.
Qed.

(** C2 (code defect).  For the amounts 100.0 and 99.0 the comparison
    computes a difference of 1.0 and a percentage of exactly 1.0, tests it
    against the stored tolerance 0.01, and classifies the pair as a
    mismatch, although the narration prints the threshold as 1.0 percent. *)
Theorem compare_100_99 :
  float_of_str "100.0" = inr (of_int 100)
  /\ float_of_str "99.0" = inr (of_int 99)
  /\ compare_core (of_int 100) (of_int 99) = (of_int 1, of_int 1, false)
  /\ tolerance = of_dec false 1 (-2)
  /\ leb (of_int 1) tolerance = false
  /\ str_of_float (mul tolerance (of_int 100)) = "1.0"
  /\ comparison_text (of_int 100) (of_int 99) (of_int 1) (of_int 1) false
     = "MISMATCH: Invoice amount $100.00 does not match spreadsheet amount $99.00 (difference: $1.00, 1.00%)".
Proof. repeat split; vm_compute; reflexivity. Qed.

(** C10.  When the larger of the two amounts is at most zero, the guard
    [max(a, b) > 0] fails, the percentage is taken to be zero and the pair
    is classified as a match whatever the difference; the summary written
    by the comparison then starts with [MATCH].  The texts of the state
    are those that [float] reads as [a] and [b]: ASCII texts, with white
    space of [float] at most at their ends. *)
Theorem compare_nonpositive_is_match (state : ReconciliationState) (narration : string)
    (a b : float) :
  float_of_str (invoice_amount state) = inr a ->
  float_of_str (spreadsheet_amount state) = inr b ->
  leb (max2 a b) (of_int 0) = true ->
  compare_core a b = (abs (sub a b), of_int 0, true)
  /\ exists narration',
       compare_body state narration
       = (None,
          (set_reconciliation_result
             ("MATCH: Invoice amount $" ++ format_2f true a
                ++ " matches spreadsheet amount $" ++ format_2f true b
                ++ " (difference: $" ++ format_2f true (abs (sub a b)) ++ ")") state,
           narration')).
Proof.
  intros Ha Hb Hmax.
  assert (Hcore : compare_core a b = (abs (sub a b), of_int 0, true)).
  { unfold compare_core. rewrite (leb_zero_not_gtb _ Hmax).
    now rewrite leb_zero_tolerance. }
  split; [exact Hcore|].
  unfold compare_body. rewrite Ha, Hb, Hcore.
  eexists. reflexivity.
Qed.

Lemma compare_nonpositive_is_match_witness :
  compare_core (of_int (-100)) (of_int (-500))
  = (abs (sub (of_int (-100)) (of_int (-500))), of_int 0, true)
  /\ exists narration',
       compare_body (initial_state "-100.0" "-500.0" "t") ""
       = (None,
          (set_reconciliation_result
             ("MATCH: Invoice amount $" ++ format_2f true (of_int (-100))
                ++ " matches spreadsheet amount $" ++ format_2f true (of_int (-500))
                ++ " (difference: $"
                ++ format_2f true (abs (sub (of_int (-100)) (of_int (-500)))) ++ ")")
             (initial_state "-100.0" "-500.0" "t"),
           narration')).
Proof.
  apply (compare_nonpositive_is_match (initial_state "-100.0" "-500.0" "t") ""
           (of_int (-100)) (of_int (-500))); vm_compute; reflexivity.
Defined.

End DecisionFacts.

(** ** End-to-end runs *)

Module WorkflowFacts.
Import PyStr PyFloat Py FloatText PyDict PyTime Extract Tracer Notions.
Import PyStrFacts PyFloatFacts PyDictFacts RunFacts DecisionFacts.

Section WithClock.

Variable clock : nat -> datetime.

(** C3 (code defect, the one of C1).  The run on 500.00 and 400.00
    returns a verdict whose code is [YES], with the rationale of a match
    above the [MISMATCH] summary; the run on 500.00 and 500.00 returns
    [YES] with the rationale "match within acceptable tolerance". *)
Theorem reconcile_500_400 (w : world) :
  fst (reconcile_amounts clock "$500.00" "$400.00" w)
  = inr (verdict_statement "YES"
           "The amounts from the invoice and spreadsheet match within acceptable tolerance."
           "MISMATCH: Invoice amount $500.00 does not match spreadsheet amount $400.00 (difference: $100.00, 20.00%)")
  /\ fst (reconcile_amounts clock "$500.00" "$500.00" w)
     = inr (verdict_statement "YES"
              "The amounts from the invoice and spreadsheet match within acceptable tolerance."
              "MATCH: Invoice amount $500.00 matches spreadsheet amount $500.00 (difference: $0.00)")
  /\ str_in "RECONCILIATION VERDICT: YES"
       (verdict_statement "YES"
          "The amounts from the invoice and spreadsheet match within acceptable tolerance."
          "MISMATCH: Invoice amount $500.00 does not match spreadsheet amount $400.00 (difference: $100.00, 20.00%)")
     = true.
Proof.
  split; [|split].
  - destruct (reconcile_run clock w "$500.00" "$400.00")
      as (w1 & w2 & w' & t0 & t1 & t2 & t3 & t4 & _ & _ & _ & E & _).
    rewrite E. cbn [fst]. apply f_equal. vm_compute. reflexivity.
  - destruct (reconcile_run clock w "$500.00" "$500.00")
      as (w1 & w2 & w' & t0 & t1 & t2 & t3 & t4 & _ & _ & _ & E & _).
    rewrite E. cbn [fst]. apply f_equal. vm_compute. reflexivity.
  - vm_compute. reflexivity.
Qed.


(** C6.  In every run the trace identifier is made by [_create_trace_id]
    before the graph starts; the graph then yields exactly three states,
    whose [workflow_step] are parse_amounts, compare_amounts and
    generate_verdict in this order and whose [trace_id] is that
    identifier; it is still the current trace after the graph and after
    the run, and the trace stored under it holds exactly the three steps
    with these stage names. *)
Theorem workflow_step_order (w : world) (a b : string) :
  exists id w1 states w2 w' tr,
    _create_trace_id clock w = (inr id, w1)
    /\ current_trace_id (self w1) = Some id
    /\ stream (_build_workflow clock) (initial_state a b id)
         (mkWorld (mkTracer (trace_data (self w1)) (current_trace_id (self w1)) empty_thinking)
                  (clock_reads w1) (files w1))
       = (inr states, w2)
    /\ map workflow_step states = ["parse_amounts"; "compare_amounts"; "generate_verdict"]
    /\ map trace_id states = [id; id; id]
    /\ current_trace_id (self w2) = Some id
    /\ reconcile_amounts clock a b w
       = (inr (verdict (last states (initial_state a b id))), w')
    /\ current_trace_id (self w') = Some id
    /\ get id (trace_data (self w')) = Some tr
    /\ snapshot_steps tr = ["parse_amounts"; "compare_amounts"; "generate_verdict"]
    /\ map step (workflow_steps tr) = ["parsing"; "comparison"; "verdict"].
Proof.
  destruct (reconcile_run clock w a b)
    as (w1 & w2 & w' & t0 & t1 & t2 & t3 & t4 & E1 & E2 & C2 & E & R & _).
  destruct (create_running clock w) as (w1' & E1' & R1 & _).
  assert (w1' = w1) by congruence. subst w1'.
  set (id := fresh_id clock w) in *.
  set (s0 := initial_state a b id) in *.
  destruct (parse_stage_fields s0) as [P1 P2].
  destruct (compare_stage_fields (after_parse s0)) as [Q1 Q2].
  destruct (verdict_stage_fields (after_compare (after_parse s0))) as (V1 & V2 & _).
  eexists id, w1, _, w2, w', _.
  split; [exact E1|]. split; [apply R1|]. split; [exact E2|].
  split; [cbn [map]; now rewrite P1, Q1, V1|].
  split; [cbn [map]; rewrite V2, Q2, P2; reflexivity|].
  split; [exact C2|]. split; [exact E|].
  split; [apply R|]. split; [apply R|].
  split.
  - unfold snapshot_steps. cbn [workflow_steps map step_of state_snapshot snap_workflow_step].
    now rewrite P1, Q1, V1.
  - reflexivity.
Qed.

End WithClock.

End WorkflowFacts.

(** ** Failures inside a stage *)

Module FailureFacts.
Import PyStr PyFloat Py FloatText PyDict PyTime Extract Tracer Notions TextNotions.
Import PyStrFacts PyFloatFacts PyDictFacts RunFacts DecisionFacts.

Section WithClock.

Variable clock : nat -> datetime.





(** The invariant holds at the start and after every run. *)
Lemma registered_init : registered init = true.
Proof. reflexivity. Qed.

Lemma running_registered (id : string) (tr : trace) (w : world) :
  running id tr w -> registered (self w) = true.
Proof.
  intros (Hc & Ht & Hg). unfold registered, mem. now rewrite Hc, Ht, Hg.
Qed.

Lemma reconcile_keeps_registered (w : world) (a b : string) :
  registered (self (snd (reconcile_amounts clock a b w))) = true.
Proof.
  destruct (reconcile_run clock w a b)
    as (w1 & w2 & w3 & t0 & t1 & t2 & t3 & t4 & _ & _ & _ & Er & R & _).
  rewrite Er. cbn [snd]. exact (running_registered _ _ _ R).
Qed.




End WithClock.


End FailureFacts.

(** ** The trace store: metrics and export *)

Module StoreFacts.
Import PyStr PyFloat Py FloatText PyDict PyTime Extract Tracer Notions.

Lemma length_filter_count {A : Type} (f : A -> bool) (l : list A) :
  Z.of_nat (List.length (filter f l)) = count f l.
Proof.
  induction l as [|x l IH]; [reflexivity|].
  simpl. destruct (f x); simpl List.length; lia.
Qed.

Lemma count_complement {A : Type} (f : A -> bool) (l : list A) :
  count (fun x => negb (f x)) l = Z.of_nat (List.length l) - count f l.
Proof.
  induction l as [|x l IH]; [reflexivity|].
  simpl count. simpl List.length. destruct (f x); simpl negb; lia.
Qed.

Lemma count_bounds {A : Type} (f : A -> bool) (l : list A) :
  0 <= count f l <= Z.of_nat (List.length l).
Proof.
  induction l as [|x l IH]; simpl count; simpl List.length; [lia|].
  destruct (f x); lia.
Qed.

(** The metrics of an empty store are the empty dictionary. *)
Lemma metrics_empty (t : tracer) :
  trace_data t = [] -> get_workflow_metrics t = None.
Proof. intros H. unfold get_workflow_metrics. now rewrite H. Qed.

(** C8.  For a store of [N >= 1] traces of which [K] carry an error, the
    metrics report [N] executions, the failure rate [K / N] and the
    success rate [(N - K) / N], as the floats of these quotients, over all
    the traces of the store. *)
Theorem metrics_rates (t : tracer) :
  trace_data t <> [] ->
  let traces := values (trace_data t) in
  let N := Z.of_nat (List.length traces) in
  let K := count has_error traces in
  0 <= K <= N
  /\ exists m,
       get_workflow_metrics t = Some m
       /\ total_executions m = N
       /\ failure_rate m = int_truediv K N
       /\ success_rate m = int_truediv (N - K) N.
Proof.
  intros Hne traces N K.
  split; [apply count_bounds|].
  unfold get_workflow_metrics.
  assert (HN : (0 <? N) = true).
  { apply Z.ltb_lt. subst N traces.
    destruct (trace_data t); [contradiction|]. simpl List.length. lia. }
  destruct (trace_data t) as [|p d] eqn:Hd; [contradiction|].
  fold traces. fold N.
  rewrite HN. eexists. split; [reflexivity|].
  cbn [total_executions failure_rate success_rate].
  split; [reflexivity|]. split.
  - now rewrite length_filter_count.
  - rewrite length_filter_count, count_complement. reflexivity.
Qed.

(** A store of four traces, one of which carries an error. *)
Lemma metrics_rates_witness :
  let t0 := Datetime 2025 1 2 3 4 5 0 in
  let ok := mkTrace [] t0 (Some t0) (Some "v") [] None None in
  let bad := mkTrace [] t0 (Some t0) None [] None (Some "boom") in
  let t := mkTracer [("a", ok); ("b", bad); ("c", ok); ("d", ok)] (Some "d") empty_thinking in
  0 <= 1 <= 4
  /\ exists m,
       get_workflow_metrics t = Some m
       /\ total_executions m = 4
       /\ failure_rate m = int_truediv 1 4
       /\ success_rate m = int_truediv (4 - 1) 4.
Proof.
  intros t0 ok bad t.
  apply (metrics_rates t). discriminate.
Defined.

Section WithFiles.

Variable clock : nat -> datetime.
Variable makedirs_fails : string -> option exn.
Variable write_fails : string -> export_doc -> option exn.


End WithFiles.



End StoreFacts.

(** ** The number pattern and the extraction *)

Module ExtractFacts.
Import PyStr PyFloat Py FloatText PyDict Regex Extract Notions TextNotions PyStrFacts.

Lemma length_append (a b : string) :
  String.length (a ++ b) = (String.length a + String.length b)%nat.
Proof. induction a as [|c a IH]; simpl; [reflexivity | now rewrite IH]. Qed.

Lemma substring_prefix (t r : string) :
  substring 0 (String.length t) (t ++ r) = t.
Proof.
  induction t as [|c t IH]; simpl.
  - destruct r; reflexivity.
  - now rewrite IH.
Qed.






(** *** Every match of the number pattern is read by [float] *)

Lemma append_nil (s : string) : s ++ "" = s.
Proof. induction s as [|c s IH]; simpl; [reflexivity | now rewrite IH]. Qed.

Lemma all_chars_app (f : ascii -> bool) (a b : string) :
  all_chars f (a ++ b) = all_chars f a && all_chars f b.
Proof.
  induction a as [|c a IH]; simpl; [reflexivity|].
  rewrite IH. now rewrite andb_assoc.
Qed.

Lemma all_chars_impl (f g : ascii -> bool) (s : string) :
  (forall c, f c = true -> g c = true) ->
  all_chars f s = true -> all_chars g s = true.
Proof.
  intros Hfg. induction s as [|c s IH]; simpl; [reflexivity|].
  intros H. apply andb_prop in H. destruct H as [Hc Hs].
  now rewrite (Hfg _ Hc), (IH Hs).
Qed.

Lemma numeric_not_space (c : ascii) :
  is_numeric c = true -> negb (is_space c) = true.
Proof.
  destruct c as [[] [] [] [] [] [] [] []]; intros H; vm_compute in H;
    try discriminate H; reflexivity.
Qed.

Lemma strip_no_space (s : string) :
  all_chars (fun c => negb (is_space c)) s = true -> strip s = s.
Proof.
  intros H. unfold strip.
  assert (Hl : lstrip s = s).
  { destruct s as [|c s]; [reflexivity|]. simpl in *.
    apply andb_prop in H. destruct H as [Hc _].
    apply negb_true_iff in Hc. now rewrite Hc. }
  rewrite Hl. clear Hl.
  induction s as [|c s IH]; [reflexivity|].
  simpl in H. apply andb_prop in H. destruct H as [Hc Hs].
  simpl. rewrite (IH Hs). apply negb_true_iff in Hc.
  destruct s; [now rewrite Hc | reflexivity].
Qed.

Lemma c_space_is_space (c : ascii) : is_c_space c = true -> is_space c = true.
Proof.
  destruct c as [[] [] [] [] [] [] [] []]; intros H; vm_compute in H;
    try discriminate H; reflexivity.
Qed.

(** [float] skips nothing on a text without white space. *)
Lemma float_strip_no_space (s : string) :
  all_chars (fun c => negb (is_space c)) s = true -> float_strip s = s.
Proof.
  intros H0.
  assert (H : all_chars (fun c => negb (is_c_space c)) s = true).
  { revert H0. apply all_chars_impl. intros c Hc.
    destruct (is_c_space c) eqn:E; [|reflexivity].
    now rewrite (c_space_is_space c E) in Hc. }
  clear H0. unfold float_strip.
  assert (Hl : lstrip_c s = s).
  { destruct s as [|c s]; [reflexivity|]. simpl in *.
    apply andb_prop in H. destruct H as [Hc _].
    apply negb_true_iff in Hc. now rewrite Hc. }
  rewrite Hl. clear Hl.
  induction s as [|c s IH]; [reflexivity|].
  simpl in H. apply andb_prop in H. destruct H as [Hc Hs].
  simpl. rewrite (IH Hs). apply negb_true_iff in Hc.
  destruct s; [now rewrite Hc | reflexivity].
Qed.

Lemma split_sign_unsigned (s : string) :
  starts_unsigned s = true -> split_sign s = (false, s).
Proof.
  destruct s as [|c s]; [discriminate|]. simpl.
  destruct c as [[] [] [] [] [] [] [] []]; intros H; vm_compute in H;
    try discriminate H; reflexivity.
Qed.

Lemma unsigned_not_a_name (s : string) :
  starts_unsigned s = true ->
  String.eqb (lower_str s) "inf" = false
  /\ String.eqb (lower_str s) "infinity" = false
  /\ String.eqb (lower_str s) "nan" = false.
Proof.
  destruct s as [|c s]; [discriminate|]. simpl.
  destruct c as [[] [] [] [] [] [] [] []]; intros H; vm_compute in H;
    try discriminate H; repeat split; reflexivity.
Qed.

(** A run of digits is read whole. *)
Lemma scan_digits_all (u : string) :
  all_chars is_digit u = true ->
  forall v acc n,
    exists acc', scan_digits (u ++ v) acc n = scan_digits v acc' (n + String.length u).
Proof.
  induction u as [|c u IH]; intros H v acc n.
  - exists acc. simpl. now rewrite Nat.add_0_r.
  - simpl in H. apply andb_prop in H. destruct H as [Hc Hu].
    destruct (IH Hu v (10 * acc + digit_val c) (S n)) as [acc' E].
    exists acc'. cbn [append scan_digits]. rewrite Hc, E. f_equal. simpl. lia.
Qed.

Lemma parse_decimal_digits (d : string) :
  all_chars is_digit d = true -> (1 <= String.length d)%nat ->
  exists m e, parse_decimal d = Some (m, e).
Proof.
  intros Hd Hl. unfold parse_decimal.
  destruct (scan_digits_all d Hd "" 0 0%nat) as [m E].
  rewrite append_nil in E. rewrite E. simpl.
  destruct (String.length d) as [|k] eqn:El; [lia|].
  simpl. now exists m, (- Z.of_nat 0).
Qed.

Lemma parse_decimal_point (u2 u4 : string) :
  all_chars is_digit u2 = true -> all_chars is_digit u4 = true ->
  (1 <= String.length u4)%nat ->
  exists m e, parse_decimal (u2 ++ String "." u4) = Some (m, e).
Proof.
  intros H2 H4 Hl. unfold parse_decimal.
  destruct (scan_digits_all u2 H2 (String "." u4) 0 0%nat) as [ip E].
  rewrite E. cbn [scan_digits].
  change (is_digit ".") with false. cbv beta iota.
  change (char_eqb "." "_") with false. cbv beta iota. cbn [andb].
  destruct (scan_digits_all u4 H4 "" ip 0%nat) as [m E4].
  rewrite append_nil in E4. rewrite E4. simpl.
  destruct (String.length u4) as [|k] eqn:El; [lia|].
  rewrite Nat.add_succ_r. simpl. now exists m, (- Z.of_nat (S k)).
Qed.

(** The matches of the number pattern: an optional sign, digits, an
    optional point, and at least one digit. *)
Lemma number_token_shape (t : string) :
  in_lang number_pattern t ->
  exists sg body,
    t = sg ++ body /\ (sg = "" \/ sg = "-" \/ sg = "+")
    /\ starts_unsigned body = true
    /\ all_chars is_numeric t = true
    /\ exists m e, parse_decimal body = Some (m, e).
Proof.
  intros (u1 & v1 & -> & H1 & L1 & u2 & v2 & -> & H2 & _
          & u3 & v3 & -> & H3 & L3 & u4 & v4 & -> & H4 & L4 & ->).
  cbn [quant_ok] in L1, L3, L4. rewrite append_nil.
  assert (Hsg : u1 = "" \/ u1 = "-" \/ u1 = "+").
  { destruct u1 as [|c [|d u]]; [now left | | simpl in L1; lia].
    simpl in H1. rewrite andb_true_r in H1. unfold is_sign, char_eqb in H1.
    apply orb_prop in H1. destruct H1 as [E|E]; apply Ascii.eqb_eq in E; subst; auto. }
  assert (Hdot : u3 = "" \/ u3 = ".").
  { destruct u3 as [|c [|d u]]; [now left | | simpl in L3; lia].
    simpl in H3. rewrite andb_true_r in H3. unfold is_dot, char_eqb in H3.
    apply Ascii.eqb_eq in H3. subst. now right. }
  assert (Hne : exists c u, u4 = String c u /\ is_digit c = true).
  { destruct u4 as [|c u]; [simpl in L4; lia|]. simpl in H4.
    apply andb_prop in H4. destruct H4 as [Hc _]. now exists c, u. }
  exists u1, (u2 ++ u3 ++ u4). split; [reflexivity|]. split; [exact Hsg|].
  split; [|split].
  - destruct u2 as [|c u]; simpl.
    + destruct Hdot as [->| ->]; [|reflexivity].
      destruct Hne as (c & u & -> & Hc). simpl. now rewrite Hc.
    + simpl in H2. apply andb_prop in H2. destruct H2 as [-> _]. reflexivity.
  - rewrite !all_chars_app.
    rewrite (all_chars_impl is_sign is_numeric u1), (all_chars_impl is_digit is_numeric u2),
            (all_chars_impl is_dot is_numeric u3), (all_chars_impl is_digit is_numeric u4);
      try assumption; try reflexivity;
      unfold is_numeric; intros c Hc; rewrite Hc;
      rewrite ?orb_true_r, ?orb_true_l; reflexivity.
  - destruct Hdot as [->| ->].
    + change ("" ++ u4) with u4.
      apply parse_decimal_digits.
      * rewrite all_chars_app. now rewrite H2, H4.
      * rewrite length_append. lia.
    + now apply parse_decimal_point.
Qed.

(** [float] reads every match of the number pattern, and no match is
    empty. *)
Lemma number_token_parses (t : string) :
  in_lang number_pattern t ->
  (exists x, float_of_str t = inr x /\ x <> S754_nan) /\ nonempty t = true.
Proof.
  intros H.
  destruct (number_token_shape t H) as (sg & body & -> & Hsg & Hb & Hnum & m & e & Hp).
  split.
  - unfold float_of_str, parse_float.
    rewrite float_strip_no_space
      by (apply (all_chars_impl is_numeric); [exact numeric_not_space | exact Hnum]).
    assert (Hs : exists neg, split_sign (sg ++ body) = (neg, body)).
    { destruct Hsg as [->|[->| ->]].
      - exists false. now apply split_sign_unsigned.
      - now exists true.
      - now exists false. }
    destruct Hs as [neg ->].
    destruct (unsigned_not_a_name body Hb) as (-> & -> & ->).
    cbn [orb]. rewrite Hp. eexists. split; [reflexivity|].
    destruct (m =? 0); [discriminate | apply PyFloatFacts.of_dec_not_nan].
  - destruct body as [|c body]; [discriminate|].
    destruct Hsg as [->|[->| ->]]; reflexivity.
Qed.


(** *** The maximum *)

Lemma ltb_irrefl (a : float) : ltb a a = false.
Proof.
  unfold ltb, SFltb.
  destruct a as [s|s| |s m e]; try destruct s; simpl; try reflexivity;
    rewrite Z.compare_refl;
    change (Pos.compare_cont Eq m m) with (Pos.compare m m);
    now rewrite Pos.compare_refl.
Qed.


Lemma gtb_max2_left (x a y : float) :
  gtb y x = false -> gtb y a = false -> gtb y (max2 x a) = false.
Proof. intros Hx Ha. unfold max2. now destruct (gtb a x). Qed.





(** *** The cleaning *)

(** Removing occurrences keeps every property of the characters. *)
Lemma replace_go_keeps (f : ascii -> bool) (old : string) (s : string) :
  all_chars f s = true -> forall skip, all_chars f (replace_go old "" skip s) = true.
Proof.
  induction s as [|c s IH]; intros H skip; [reflexivity|].
  simpl in H. apply andb_prop in H. destruct H as [Hc Hs].
  cbn [replace_go]. destruct skip as [|k]; [|now apply IH].
  destruct (prefix_b old (String c s)).
  - cbn [append]. now apply IH.
  - simpl. rewrite Hc. now apply IH.
Qed.

Lemma replace_char_gone (c : ascii) (f : ascii -> bool) (s : string) :
  (forall a, char_eqb c a = false -> f a = true) ->
  all_chars f (replace (String c "") "" s) = true.
Proof.
  intros Hf. unfold replace. induction s as [|a s IH]; [reflexivity|].
  cbn [replace_go prefix_b]. rewrite andb_true_r.
  destruct (char_eqb c a) eqn:E.
  - cbn [append String.length Nat.pred]. exact IH.
  - simpl. rewrite (Hf _ E). exact IH.
Qed.

Lemma lstrip_keeps (f : ascii -> bool) (s : string) :
  all_chars f s = true -> all_chars f (lstrip s) = true.
Proof.
  induction s as [|c s IH]; intros H; [reflexivity|].
  simpl. destruct (is_space c); [|exact H].
  simpl in H. apply andb_prop in H. now apply IH.
Qed.

Lemma rstrip_keeps (f : ascii -> bool) (s : string) :
  all_chars f s = true -> all_chars f (rstrip s) = true.
Proof.
  induction s as [|c s IH]; intros H; [reflexivity|].
  simpl in H. apply andb_prop in H. destruct H as [Hc Hs].
  simpl. specialize (IH Hs). destruct (rstrip s) as [|d r].
  - destruct (is_space c); simpl; [reflexivity | now rewrite Hc].
  - change (all_chars f (String c (String d r))) with (f c && all_chars f (String d r)).
    now rewrite Hc, IH.
Qed.

(** The cleaned text holds neither a dollar sign nor a comma. *)
Lemma cleaned_no_dollar_comma (text : string) :
  all_chars (fun c => negb (char_eqb c "$") && negb (char_eqb c ",")) (cleaned text) = true.
Proof.
  unfold cleaned, strip.
  apply rstrip_keeps, lstrip_keeps, replace_go_keeps, replace_go_keeps.
  assert (H1 : all_chars (fun c => negb (char_eqb c "$")) (replace "$" "" text) = true).
  { apply replace_char_gone. intros a E. unfold char_eqb in *.
    rewrite Ascii.eqb_sym. now rewrite E. }
  assert (H2 : all_chars (fun c => negb (char_eqb c "$"))
                 (replace "," "" (replace "$" "" text)) = true)
    by now apply replace_go_keeps.
  assert (H3 : all_chars (fun c => negb (char_eqb c ","))
                 (replace "," "" (replace "$" "" text)) = true).
  { apply replace_char_gone. intros a E. unfold char_eqb in *.
    rewrite Ascii.eqb_sym. now rewrite E. }
  revert H2 H3. generalize (replace "," "" (replace "$" "" text)). intros s.
  induction s as [|c s IH]; simpl; [reflexivity|]. intros H2 H3.
  apply andb_prop in H2. apply andb_prop in H3.
  destruct H2 as [-> H2], H3 as [-> H3]. simpl. now apply IH.
Qed.

(** *** Plain texts *)













(** *** What [float] reads is ASCII *)

Lemma c_space_ascii (c : ascii) : is_c_space c = true -> is_ascii_char c = true.
Proof.
  destruct c as [[] [] [] [] [] [] [] []]; intros H; vm_compute in H;
    try discriminate H; reflexivity.
Qed.

Lemma digit_ascii (c : ascii) : is_digit c = true -> is_ascii_char c = true.
Proof.
  destruct c as [[] [] [] [] [] [] [] []]; intros H; vm_compute in H;
    try discriminate H; reflexivity.
Qed.

Lemma lower_ascii (c : ascii) : is_ascii_char (lower c) = is_ascii_char c.
Proof. destruct c as [[] [] [] [] [] [] [] []]; reflexivity. Qed.

Lemma lower_str_ascii (s : string) : is_ascii (lower_str s) = is_ascii s.
Proof.
  unfold is_ascii. induction s as [|c s IH]; [reflexivity|].
  cbn [lower_str all_chars]. now rewrite lower_ascii, IH.
Qed.

Lemma lstrip_c_ascii (s : string) : is_ascii (lstrip_c s) = true -> is_ascii s = true.
Proof.
  unfold is_ascii. induction s as [|c s IH]; [reflexivity|]. cbn [lstrip_c].
  destruct (is_c_space c) eqn:E; [|auto]. intros H. cbn [all_chars].
  now rewrite (c_space_ascii c E), (IH H).
Qed.

Lemma rstrip_c_ascii (s : string) : is_ascii (rstrip_c s) = true -> is_ascii s = true.
Proof.
  unfold is_ascii. induction s as [|c s IH]; [reflexivity|]. cbn [rstrip_c].
  destruct (rstrip_c s) as [|d r] eqn:Er.
  - destruct (is_c_space c) eqn:E; intros H; cbn [all_chars] in *.
    + now rewrite (c_space_ascii c E), IH.
    + apply andb_prop in H. destruct H as [Hc _]. now rewrite Hc, IH.
  - intros H. change (all_chars is_ascii_char (String c (String d r)))
      with (is_ascii_char c && all_chars is_ascii_char (String d r)) in H.
    apply andb_prop in H. destruct H as [Hc H]. cbn [all_chars]. now rewrite Hc, (IH H).
Qed.

Lemma split_sign_cases (c : ascii) (t : string) :
  split_sign (String c t)
  = if Ascii.eqb c "-" then (true, t)
    else if Ascii.eqb c "+" then (false, t) else (false, String c t).
Proof. destruct c as [[] [] [] [] [] [] [] []]; reflexivity. Qed.

Lemma split_sign_ascii (t r : string) (neg : bool) :
  split_sign t = (neg, r) -> is_ascii r = true -> is_ascii t = true.
Proof.
  destruct t as [|c t]; [intros [= _ <-]; auto|]. rewrite split_sign_cases.
  destruct (Ascii.eqb c "-") eqn:E1.
  { apply Ascii.eqb_eq in E1. subst c. intros [= _ <-] H. unfold is_ascii in *.
    cbn [all_chars]. now rewrite H. }
  destruct (Ascii.eqb c "+") eqn:E2.
  { apply Ascii.eqb_eq in E2. subst c. intros [= _ <-] H. unfold is_ascii in *.
    cbn [all_chars]. now rewrite H. }
  intros [= _ <-]. auto.
Qed.

(** What [scan_digits] passes over is ASCII. *)
Lemma scan_digits_ascii (s : string) :
  (forall acc n v n' rest,
      scan_digits s acc n = (v, n', rest) -> is_ascii rest = true -> is_ascii s = true)
  /\ (forall c acc n v n' rest,
         scan_digits (String c s) acc n = (v, n', rest) -> is_ascii rest = true ->
         is_ascii (String c s) = true).
Proof.
  unfold is_ascii.
  induction s as [|d s [IH1 IH2]].
  - split.
    + intros acc n v n' rest [= _ _ <-]. auto.
    + intros c acc n v n' rest. cbn [scan_digits].
      destruct (is_digit c) eqn:Ec.
      * intros [= _ _ <-] _. cbn [all_chars]. now rewrite (digit_ascii c Ec).
      * destruct (char_eqb c "_" && (0 <? n)%nat); intros [= _ _ <-]; auto.
  - split; [exact (IH2 d)|].
    intros c acc n v n' rest. cbn [scan_digits].
    destruct (is_digit c) eqn:Ec.
    + intros H Hr. cbn [all_chars]. rewrite (digit_ascii c Ec).
      exact (IH2 d _ _ _ _ _ H Hr).
    + destruct (char_eqb c "_" && (0 <? n)%nat) eqn:Eu.
      * apply andb_prop in Eu. destruct Eu as [Eu _].
        apply Ascii.eqb_eq in Eu. subst c.
        destruct (is_digit d) eqn:Ed.
        -- intros H Hr. cbn [all_chars]. rewrite (digit_ascii d Ed).
           now rewrite (IH1 _ _ _ _ _ H Hr).
        -- intros [= _ _ <-]. auto.
      * intros [= _ _ <-]. auto.
Qed.

Lemma dot_cases {T : Type} (c : ascii) (r : string) (f : string -> T) (d : T) :
  match String c r with
  | String "." r' => f r'
  | _ => d
  end = if Ascii.eqb c "." then f r else d.
Proof. destruct c as [[] [] [] [] [] [] [] []]; reflexivity. Qed.

Lemma lower_e_ascii (c : ascii) : char_eqb (lower c) "e" = true -> is_ascii_char c = true.
Proof.
  destruct c as [[] [] [] [] [] [] [] []]; intros H; vm_compute in H;
    try discriminate H; reflexivity.
Qed.

Lemma parse_exponent_ascii (s : string) (e : Z) :
  parse_exponent s = Some e -> is_ascii s = true.
Proof.
  unfold parse_exponent. destruct (split_sign s) as [neg r] eqn:Es.
  destruct (scan_digits r 0 0) as [[v n] rest] eqn:Er.
  destruct n; [discriminate|]. destruct rest; [|discriminate]. intros _.
  apply (split_sign_ascii _ _ _ Es).
  exact (proj1 (scan_digits_ascii r) _ _ _ _ _ Er eq_refl).
Qed.

Lemma parse_decimal_ascii (s : string) (m e : Z) :
  parse_decimal s = Some (m, e) -> is_ascii s = true.
Proof.
  unfold parse_decimal.
  destruct (scan_digits s 0 0) as [[ip ni] r1] eqn:E1.
  intros H. apply (proj1 (scan_digits_ascii s) _ _ _ _ _ E1).
  assert (Htail : forall nf r2 m0,
             (if (ni + nf =? 0)%nat then None
              else match r2 with
                   | "" => Some (m0, - Z.of_nat nf)
                   | String c r3 =>
                       if char_eqb (lower c) "e"
                       then match parse_exponent r3 with
                            | Some e0 => Some (m0, e0 - Z.of_nat nf)
                            | None => None
                            end
                       else None
                   end) = Some (m, e) -> is_ascii r2 = true).
  { intros nf r2 m0 Ht. destruct (ni + nf =? 0)%nat; [discriminate|].
    destruct r2 as [|c r3]; [reflexivity|].
    destruct (char_eqb (lower c) "e") eqn:Ece; [|discriminate].
    destruct (parse_exponent r3) as [e0|] eqn:Ee; [|discriminate].
    unfold is_ascii. cbn [all_chars]. rewrite (lower_e_ascii c Ece).
    exact (parse_exponent_ascii r3 e0 Ee). }
  destruct r1 as [|c r]; [reflexivity|].
  rewrite (dot_cases c r (fun r' => scan_digits r' ip 0) (ip, 0%nat, String c r)) in H.
  destruct (Ascii.eqb c ".") eqn:Ed.
  - apply Ascii.eqb_eq in Ed. subst c.
    destruct (scan_digits r ip 0) as [[m0 nf] r2] eqn:E2.
    apply Htail in H. unfold is_ascii. cbn [all_chars].
    exact (proj1 (scan_digits_ascii r) _ _ _ _ _ E2 H).
  - exact (Htail 0%nat (String c r) ip H).
Qed.

(** [float] reads no text that holds a character outside ASCII: such a
    text raises here, while Python may read it when the character is a
    digit or a white space of the Unicode database. *)
Lemma float_of_str_ascii (s : string) (x : float) :
  float_of_str s = inr x -> is_ascii s = true.
Proof.
  unfold float_of_str. destruct (parse_float s) as [y|] eqn:E; [|discriminate].
  intros _. unfold parse_float in E. cbv zeta in E.
  destruct (split_sign (float_strip s)) as [neg r] eqn:Es.
  apply lstrip_c_ascii, rstrip_c_ascii. fold (float_strip s).
  apply (split_sign_ascii _ _ _ Es).
  rewrite <- lower_str_ascii.
  destruct (String.eqb (lower_str r) "inf") eqn:N1;
    [apply String.eqb_eq in N1; now rewrite N1|].
  destruct (String.eqb (lower_str r) "infinity") eqn:N2;
    [apply String.eqb_eq in N2; now rewrite N2|].
  destruct (String.eqb (lower_str r) "nan") eqn:N3;
    [apply String.eqb_eq in N3; now rewrite N3|].
  cbn [orb] in E. rewrite lower_str_ascii.
  destruct (parse_decimal r) as [[m e]|] eqn:Ep; [|discriminate].
  exact (parse_decimal_ascii r m e Ep).
Qed.

(** *** The extraction *)




End ExtractFacts.

(** ** The world a run leaves *)

Module RunWorldFacts.
Import PyStr PyFloat Py FloatText PyDict PyTime Extract Tracer Notions MoreNotions.
Import PyDictFacts RunFacts.

Section WithClock.

Variable clock : nat -> datetime.

(** [_log_thinking] on a world whose current trace is in the store. *)
Lemma log_explicit (id : string) (tr : trace) (td : dict trace) (live : dict string)
    (reads : nat) (fl : list (string * export_doc))
    (state : ReconciliationState) (step_name thinking_text : string) :
  truthy (Some id) = true ->
  get id td = Some tr ->
  _log_thinking clock state step_name thinking_text
    (mkWorld (mkTracer td (Some id) live) reads fl)
  = (inr (logged state step_name thinking_text),
     mkWorld
       (mkTracer
          (set id
             (set_workflow_steps
                (workflow_steps tr
                   ++ [step_of (logged state step_name thinking_text)
                               step_name thinking_text (clock reads)]) tr) td)
          (Some id) (set step_name thinking_text live))
       (S reads) fl).
Proof.
  intros Ht Hg. unfold _log_thinking. run_monad. rewrite Ht. cbv beta iota.
  repeat (rewrite Hg; cbv beta iota). reflexivity.
Qed.

Lemma parse_node_eq (state : ReconciliationState) :
  parse_amounts_node clock state
  = _log_thinking clock (fst (parse_stage state)) "parsing" (snd (parse_stage state)).
Proof. unfold parse_amounts_node. now destruct (parse_stage state). Qed.

Lemma compare_node_eq (state : ReconciliationState) :
  compare_amounts_node clock state
  = _log_thinking clock (fst (compare_stage state)) "comparison" (snd (compare_stage state)).
Proof. unfold compare_amounts_node. now destruct (compare_stage state). Qed.

Lemma verdict_node_eq (state : ReconciliationState) :
  generate_verdict_node clock state
  = _log_thinking clock (fst (verdict_stage state)) "verdict" (snd (verdict_stage state)).
Proof. unfold generate_verdict_node. now destruct (verdict_stage state). Qed.

(** The result and the world of a run, in closed form. *)
Lemma reconcile_explicit (w : world) (a b : string) :
  reconcile_amounts clock a b w
  = (inr (verdict (run_final clock a b w)), run_world clock a b w).
Proof.
  destruct w as [[td cur live] reads fl].
  set (w := mkWorld (mkTracer td cur live) reads fl).
  set (id := fresh_id clock w).
  set (s0 := initial_state a b id).
  assert (Ht : truthy (Some id) = true) by reflexivity.
  set (td1 := set id (mkTrace [] (clock (S reads)) None None [] None None) td).
  assert (E1 : _create_trace_id clock w
               = (inr id, mkWorld (mkTracer td1 (Some id) live) (S (S reads)) fl))
    by reflexivity.
  set (tr0 := mkTrace [] (clock (S reads)) None None [] None None) in *.
  assert (G1 : get id td1 = Some tr0) by apply get_set_same.
  pose proof (log_explicit id tr0 td1 empty_thinking (S (S reads)) fl
                (fst (parse_stage s0)) "parsing" (snd (parse_stage s0)) Ht G1) as L1.
  rewrite <- parse_node_eq in L1. fold (after_parse s0) in L1.
  set (s1 := after_parse s0) in *.
  match type of L1 with _ = (_, mkWorld (mkTracer ?d _ ?l) _ _) =>
    set (td2 := d) in *; set (live2 := l) in * end.
  assert (G2 : get id td2 = Some (set_workflow_steps
            (workflow_steps tr0 ++ [step_of s1 "parsing" (snd (parse_stage s0))
                                            (clock (S (S reads)))]) tr0))
    by apply get_set_same.
  pose proof (log_explicit id _ td2 live2 (S (S (S reads))) fl
                (fst (compare_stage s1)) "comparison" (snd (compare_stage s1)) Ht G2) as L2.
  rewrite <- compare_node_eq in L2. fold (after_compare s1) in L2.
  set (s2 := after_compare s1) in *.
  match type of L2 with _ = (_, mkWorld (mkTracer ?d _ ?l) _ _) =>
    set (td3 := d) in *; set (live3 := l) in * end.
  assert (G3 : get id td3 = Some (set_workflow_steps
            ((workflow_steps tr0 ++ [step_of s1 "parsing" (snd (parse_stage s0))
                                             (clock (S (S reads)))])
               ++ [step_of s2 "comparison" (snd (compare_stage s1))
                           (clock (S (S (S reads))))]) tr0))
    by apply get_set_same.
  pose proof (log_explicit id _ td3 live3 (S (S (S (S reads)))) fl
                (fst (verdict_stage s2)) "verdict" (snd (verdict_stage s2)) Ht G3) as L3.
  rewrite <- verdict_node_eq in L3. fold (after_verdict s2) in L3.
  set (s3 := after_verdict s2) in *.
  match type of L3 with _ = (_, ?W) => set (w4 := W) in * end.
  assert (Es : stream (_build_workflow clock) s0
                 (mkWorld (mkTracer td1 (Some id) empty_thinking) (S (S reads)) fl)
               = (inr [s1; s2; s3], w4)).
  { assert (E3 : run_from (_build_workflow clock) 23 (Node "generate_verdict") s2
                    (mkWorld (mkTracer td3 (Some id) live3) (S (S (S (S reads)))) fl)
                  = (inr [s3], w4)).
    { rewrite (run_from_node _ _ _ _ _ (node_verdict clock)).
      rewrite (mbind_ok _ _ _ _ _ L3). rewrite edge_verdict. reflexivity. }
    assert (E2 : run_from (_build_workflow clock) 24 (Node "compare_amounts") s1
                    (mkWorld (mkTracer td2 (Some id) live2) (S (S (S reads))) fl)
                  = (inr [s2; s3], w4)).
    { rewrite (run_from_node _ _ _ _ _ (node_compare clock)).
      rewrite (mbind_ok _ _ _ _ _ L2). rewrite edge_compare.
      rewrite (mbind_ok _ _ _ _ _ E3). reflexivity. }
    change (stream (_build_workflow clock) s0)
      with (run_from (_build_workflow clock) 25 (Node "parse_amounts") s0).
    rewrite (run_from_node _ _ _ _ _ (node_parse clock)).
    rewrite (mbind_ok _ _ _ _ _ L1). rewrite edge_parse.
    rewrite (mbind_ok _ _ _ _ _ E2). reflexivity. }
  unfold reconcile_amounts.
  rewrite (mbind_ok _ _ _ _ _ E1).
  change ((set_live_thinking empty_thinking ;;; ?k)
            (mkWorld (mkTracer td1 (Some id) live) (S (S reads)) fl))
    with (k (mkWorld (mkTracer td1 (Some id) empty_thinking) (S (S reads)) fl)).
  assert (Ei : invoke (_build_workflow clock) s0
                 (mkWorld (mkTracer td1 (Some id) empty_thinking) (S (S reads)) fl)
               = (inr s3, w4)).
  { unfold invoke. rewrite (mbind_ok _ _ _ _ _ Es). reflexivity. }
  unfold try_except. rewrite (mbind_ok _ _ _ _ _ Ei).
  subst w4. run_monad. rewrite Ht. cbv beta iota.
  repeat (rewrite get_set_same; cbv beta iota).
  unfold run_world, run_trace, run_final, run_compared, run_parsed.
  fold w. fold id. fold s0. fold s1. fold s2. fold s3.
  subst td3 td2 td1 live3 live2. rewrite !set_set.
  reflexivity.
Qed.

Lemma get_set (V : Type) (k k' : string) (v : V) (d : dict V) :
  get k (set k' v d) = if String.eqb k k' then Some v else get k d.
Proof.
  destruct (String.eqb_spec k k') as [->|Hne].
  - apply get_set_same.
  - now apply get_set_other.
Qed.

Lemma length_set (V : Type) (k : string) (v : V) (d : dict V) :
  List.length (set k v d)
  = (List.length d + (if mem k d then 0 else 1))%nat.
Proof.
  unfold mem. induction d as [|[k0 v0] d IH]; [reflexivity|].
  simpl. destruct (String.eqb k k0); simpl; [lia|].
  rewrite IH. destruct (get k d); lia.
Qed.

(** X1.  A run puts its trace under the fresh identifier and leaves every
    other trace of the store as it was; the store grows by one trace,
    unless a trace with the same identifier (made in the same second) was
    there, which is then replaced.  No file is written and the clock is
    read six times. *)
Theorem store_after_run (w : world) (a b : string) (k : string) :
  let w' := snd (reconcile_amounts clock a b w) in
  get k (trace_data (self w'))
  = (if String.eqb k (fresh_id clock w) then Some (run_trace clock a b w)
     else get k (trace_data (self w)))
  /\ List.length (trace_data (self w'))
     = (List.length (trace_data (self w))
        + (if mem (fresh_id clock w) (trace_data (self w)) then 0 else 1))%nat
  /\ current_trace_id (self w') = Some (fresh_id clock w)
  /\ files w' = files w
  /\ clock_reads w' = (6 + clock_reads w)%nat.
Proof.
  intros w'. subst w'. rewrite reconcile_explicit. cbn [snd].
  unfold run_world. cbn [self trace_data current_trace_id files clock_reads].
  split; [apply get_set|]. split; [apply length_set|]. repeat split.
Qed.

(** X2.  After a run, [get_trace()] without an identifier returns the
    trace of this run: it is sealed, its result is the verdict that the
    run returned, it carries no error, and its observability entry counts
    three steps, a success rate of 1.0 and, as duration, the seconds
    between its recorded start and end. *)
Theorem trace_after_run (w : world) (a b : string) :
  let w' := snd (reconcile_amounts clock a b w) in
  let tr := run_trace clock a b w in
  exists obs v,
    get_trace (self w') None = Some (tr, obs)
    /\ fst (reconcile_amounts clock a b w) = inr v
    /\ result tr = Some v
    /\ sealed tr = true
    /\ trace_error tr = None
    /\ total_workflow_steps obs = 3
    /\ obs_success_rate obs = of_int 1
    /\ execution_duration obs
       = Some (seconds_between (clock (1 + clock_reads w)%nat)
                               (clock (5 + clock_reads w)%nat)).
Proof.
  intros w' tr. subst w'. rewrite reconcile_explicit. cbn [fst snd].
  exists (get_observability tr), (verdict (run_final clock a b w)).
  split.
  - unfold get_trace, run_world. cbn [self current_trace_id trace_data truthy].
    change (truthy (Some (fresh_id clock w))) with true. cbv beta iota.
    now rewrite get_set_same.
  - repeat split.
Qed.

(** The stages leave the narration log of the state alone. *)
Lemma parse_stage_log (s : ReconciliationState) :
  thinking_log (fst (parse_stage s)) = thinking_log s.
Proof.
  unfold parse_stage, parse_body.
  destruct (_extract_number _) as [e|n1]; [reflexivity|].
  destruct (_extract_number _) as [e|n2]; reflexivity.
Qed.

Lemma compare_stage_log (s : ReconciliationState) :
  thinking_log (fst (compare_stage s)) = thinking_log s.
Proof.
  unfold compare_stage, compare_body.
  destruct (float_of_str _) as [e|x]; [reflexivity|].
  destruct (float_of_str _) as [e|y]; [reflexivity|].
  destruct (compare_core x y) as [[d p] m]. reflexivity.
Qed.

Lemma verdict_stage_log (s : ReconciliationState) :
  thinking_log (fst (verdict_stage s)) = thinking_log s.
Proof.
  unfold verdict_stage, verdict_body. cbn [reconciliation_result set_workflow_step].
  destruct (decide_verdict (reconciliation_result s)) as [c r]. reflexivity.
Qed.

(** X3.  After a run the live narration holds, under the keys parsing,
    comparison and verdict in this order, the narrations of the three
    steps of the trace, and the narration log of the final state is the
    same dictionary. *)
Theorem live_thinking_after_run (w : world) (a b : string) :
  let w' := snd (reconcile_amounts clock a b w) in
  map fst (live_thinking (self w')) = ["parsing"; "comparison"; "verdict"]
  /\ map snd (live_thinking (self w'))
     = map thinking (workflow_steps (run_trace clock a b w))
  /\ thinking_log (run_final clock a b w) = live_thinking (self w')
  /\ fst (get_live_thinking w') = inr (live_thinking (self w')).
Proof.
  intros w'. subst w'. rewrite reconcile_explicit. cbn [snd].
  unfold run_world, run_trace.
  assert (Hlog : thinking_log (run_final clock a b w)
                 = set "verdict" (snd (verdict_stage (run_compared clock a b w)))
                     (set "comparison" (snd (compare_stage (run_parsed clock a b w)))
                        (set "parsing"
                           (snd (parse_stage (initial_state a b (fresh_id clock w)))) []))).
  { unfold run_final, after_verdict, logged. cbn [thinking_log set_thinking_log].
    rewrite verdict_stage_log.
    unfold run_compared, after_compare, logged. cbn [thinking_log set_thinking_log].
    rewrite compare_stage_log.
    unfold run_parsed, after_parse, logged. cbn [thinking_log set_thinking_log].
    rewrite parse_stage_log. reflexivity. }
  revert Hlog.
  generalize (snd (verdict_stage (run_compared clock a b w))).
  generalize (snd (compare_stage (run_parsed clock a b w))).
  generalize (snd (parse_stage (initial_state a b (fresh_id clock w)))).
  intros t1 t2 t3 Hlog.
  split; [reflexivity|]. split; [reflexivity|]. split; [exact Hlog | reflexivity].
Qed.

End WithClock.

End RunWorldFacts.

(** ** The comparison of two amounts *)

Module CompareFacts.
Import PyStr PyFloat Py FloatText Tracer Notions FloatNotions PyFloatFacts.

Lemma abs_round_aux (s s' : bool) (m e : Z) (l : location) :
  SFabs (binary_round_aux prec emax s m e l) = SFabs (binary_round_aux prec emax s' m e l).
Proof.
  unfold binary_round_aux.
  destruct (shr_fexp prec emax m e l) as [r1 e1].
  destruct (shr_fexp prec emax _ e1 loc_Exact) as [r2 e2].
  destruct (shr_m r2); try reflexivity.
  destruct (e2 <=? emax - prec); reflexivity.
Qed.

Lemma abs_round (s s' : bool) (m : positive) (e : Z) :
  SFabs (binary_round prec emax s m e) = SFabs (binary_round prec emax s' m e).
Proof.
  unfold binary_round. destruct (shl_align m e _) as [mz ez]. apply abs_round_aux.
Qed.

Lemma abs_normalize_opp (m e : Z) :
  SFabs (binary_normalize prec emax (- m) e false)
  = SFabs (binary_normalize prec emax m e false).
Proof. destruct m; simpl; [reflexivity| |]; apply abs_round. Qed.

(** The absolute difference does not depend on the order. *)
Lemma abs_sub_comm (a b : float) : abs (sub a b) = abs (sub b a).
Proof.
  unfold abs, sub.
  destruct a as [sa|sa| |sa ma ea], b as [sb|sb| |sb mb eb];
    try reflexivity; try (destruct sa, sb; reflexivity); try (destruct sa; reflexivity);
    try (destruct sb; reflexivity).
  unfold SFsub. cbv zeta. rewrite (Z.min_comm eb ea).
  rewrite <- abs_normalize_opp. f_equal. f_equal. lia.
Qed.

Lemma compare_swap (a b : float) :
  SFcompare b a = option_map CompOpp (SFcompare a b).
Proof.
  destruct a as [sa|sa| |sa ma ea], b as [sb|sb| |sb mb eb];
    try reflexivity; try (destruct sa, sb; reflexivity); try (destruct sa; reflexivity);
    try (destruct sb; reflexivity).
  unfold SFcompare. simpl option_map. f_equal.
  rewrite (Z.compare_antisym ea eb).
  change (Pos.compare_cont Eq mb ma) with (Pos.compare mb ma).
  change (Pos.compare_cont Eq ma mb) with (Pos.compare ma mb).
  rewrite (Pos.compare_antisym ma mb).
  destruct sa, sb; try reflexivity;
    destruct (ea ?= eb); try reflexivity; destruct (ma ?= mb)%positive; reflexivity.
Qed.

Lemma compare_eq (a b : float) :
  SFcompare a b = Some Eq ->
  a = b \/ (gtb a (of_int 0) = false /\ gtb b (of_int 0) = false /\ is_finite a = true).
Proof.
  destruct a as [sa|sa| |sa ma ea], b as [sb|sb| |sb mb eb]; simpl;
    try discriminate; try (destruct sa; discriminate); try (destruct sb; discriminate).
  - intros _. right. repeat split.
  - destruct sa, sb; try discriminate; intros _; now left.
  - intros H. left.
    assert (sa = sb /\ (ea ?= eb) = Eq /\ (ma ?= mb)%positive = Eq) as (-> & He & Hm).
    { change (Pos.compare_cont Eq ma mb) with (Pos.compare ma mb) in H.
      destruct sa, sb; try discriminate;
        destruct (ea ?= eb); try discriminate;
        destruct (ma ?= mb)%positive; try discriminate; auto. }
    apply Z.compare_eq in He. apply Pos.compare_eq in Hm. now subst.
Qed.

(** The builtin [max] on two numbers does not depend on their order, up
    to the sign of a zero. *)
Lemma max2_swap (a b : float) :
  is_nan a = false -> is_nan b = false ->
  max2 a b = max2 b a
  \/ (gtb (max2 a b) (of_int 0) = false /\ gtb (max2 b a) (of_int 0) = false).
Proof.
  intros Ha Hb.
  assert (H1 : max2 a b = match SFcompare a b with Some Lt => b | _ => a end).
  { unfold max2, gtb, SFltb. destruct (SFcompare a b) as [[| |]|]; reflexivity. }
  assert (H2 : max2 b a = match SFcompare a b with Some Gt => a | _ => b end).
  { unfold max2, gtb, SFltb. rewrite (compare_swap a b).
    destruct (SFcompare a b) as [[| |]|]; reflexivity. }
  rewrite H1, H2.
  destruct (SFcompare a b) as [[| |]|] eqn:E.
  - destruct (compare_eq a b E) as [->|(Ga & Gb & _)]; [now left|right; now split].
  - now left.
  - now left.
  - destruct a, b; try discriminate; simpl in E; discriminate.
Qed.

(** X4.  The comparison of two numbers does not depend on which of them
    is the invoice amount: difference, percentage and classification are
    the same in both orders. *)
Theorem compare_is_symmetric (a b : float) :
  is_nan a = false -> is_nan b = false ->
  compare_core a b = compare_core b a.
Proof.
  intros Ha Hb. unfold compare_core. cbv zeta.
  rewrite (abs_sub_comm b a).
  destruct (max2_swap a b Ha Hb) as [->|[-> ->]]; reflexivity.
Qed.

(** With a NaN the order does matter. *)
Lemma compare_nan_asymmetric :
  compare_core nan (of_int 5) <> compare_core (of_int 5) nan.
Proof. vm_compute. discriminate. Qed.

Lemma sub_self_finite (x : float) : is_finite x = true -> abs (sub x x) = zero false.
Proof.
  destruct x as [s|s| |s m e]; try discriminate; intros _.
  - destruct s; reflexivity.
  - unfold abs, sub, SFsub. cbv zeta. rewrite Z.sub_diag. reflexivity.
Qed.

(** X5.  Two equal finite amounts are always a match: the difference and
    the percentage are zero, and the summary written is the [MATCH] one
    with a difference of $0.00.  Two amounts that are both [inf] are
    classified as a mismatch.  The texts of the state are those that
    [float] reads as [x]: ASCII texts, with white space of [float] at most
    at their ends. *)
Theorem compare_equal_amounts (state : ReconciliationState) (narration : string) (x : float) :
  is_finite x = true ->
  float_of_str (invoice_amount state) = inr x ->
  float_of_str (spreadsheet_amount state) = inr x ->
  compare_core x x = (zero false, zero false, true)
  /\ (exists narration',
        compare_body state narration
        = (None,
           (set_reconciliation_result
              ("MATCH: Invoice amount $" ++ format_2f true x
                 ++ " matches spreadsheet amount $" ++ format_2f true x
                 ++ " (difference: $0.00)") state,
            narration')))
  /\ compare_core (inf false) (inf false) = (nan, nan, false).
Proof.
  intros Hf Ha Hb.
  assert (Hcore : compare_core x x = (zero false, zero false, true)).
  { unfold compare_core. cbv zeta. rewrite (sub_self_finite x Hf).
    assert (Hm : max2 x x = x) by (unfold max2, gtb; now rewrite ExtractFacts.ltb_irrefl).
    rewrite Hm.
    destruct x as [s|s| |s m e]; try discriminate.
    - reflexivity.
    - destruct s; reflexivity. }
  split; [exact Hcore|]. split; [|reflexivity].
  unfold compare_body. rewrite Ha, Hb, Hcore. eexists. reflexivity.
Qed.

Lemma compare_is_symmetric_witness :
  compare_core (of_int 500) (of_int 400) = compare_core (of_int 400) (of_int 500).
Proof. apply compare_is_symmetric; reflexivity. Defined.

Lemma compare_equal_amounts_witness :
  let state := initial_state "12.5" "12.50" "t" in
  let x := of_dec false 125 (-1) in
  compare_core x x = (zero false, zero false, true)
  /\ (exists narration',
        compare_body state ""
        = (None,
           (set_reconciliation_result
              ("MATCH: Invoice amount $" ++ format_2f true x
                 ++ " matches spreadsheet amount $" ++ format_2f true x
                 ++ " (difference: $0.00)") state,
            narration')))
  /\ compare_core (inf false) (inf false) = (nan, nan, false).
Proof.
  intros state x. apply (compare_equal_amounts state "" x); reflexivity.
Defined.

End CompareFacts.

(** ** The metrics of a store *)

Module MetricsFacts.
Import PyStr PyFloat Py FloatText PyDict PyTime Tracer Notions MoreNotions.
Import StoreNotions PyFloatFacts StoreFacts ExtractFacts.

(** The entries of the metrics of a store that is not empty. *)
Lemma metrics_fields (t : tracer) (m : metrics) :
  get_workflow_metrics t = Some m ->
  let traces := values (trace_data t) in
  let N := Z.of_nat (List.length traces) in
  0 < N
  /\ total_executions m = N
  /\ failure_rate m = int_truediv (count has_error traces) N
  /\ success_rate m = int_truediv (N - count has_error traces) N
  /\ min_duration m
     = match valid_durations t with [] => of_int 0 | d :: l => min_floats d l end
  /\ max_duration m
     = match valid_durations t with [] => of_int 0 | d :: l => max_floats d l end
  /\ total_thinking_steps m
     = sum_Z (map (fun tr => Z.of_nat (List.length (workflow_steps tr))) traces).
Proof.
  intros Hm traces N.
  assert (HN : 0 < N).
  { subst N traces. unfold get_workflow_metrics in Hm.
    destruct (trace_data t); [discriminate|]. unfold values. simpl List.length. lia. }
  split; [exact HN|].
  unfold get_workflow_metrics in Hm. unfold valid_durations.
  destruct (trace_data t) as [|p d] eqn:Hd; [discriminate|].
  cbv zeta in Hm. fold traces in Hm |- *. fold N in Hm.
  apply Z.ltb_lt in HN. rewrite HN in Hm.
  assert (EN : N = Z.of_nat (List.length traces)) by reflexivity.
  clearbody N. clearbody traces.
  injection Hm as <-.
  cbn [total_executions failure_rate success_rate min_duration max_duration
       total_thinking_steps].
  split; [reflexivity|]. split; [now rewrite length_filter_count|].
  split; [rewrite length_filter_count, count_complement, EN; reflexivity|].
  split; [reflexivity|]. split; reflexivity.
Qed.









End MetricsFacts.

(** ** Sequences of runs *)

Module RunsFacts.
Import PyStr PyFloat Py FloatText PyDict PyTime Extract Tracer Notions MoreNotions.
Import TracerState StoreNotions PyDictFacts RunFacts RunWorldFacts StoreFacts MetricsFacts.

(** The quotient of a positive integer by itself is the float one. *)
Lemma int_truediv_self (n : Z) : 0 < n -> int_truediv n n = of_int 1.
Proof.
  intros H. destruct n as [|p|p]; try lia.
  unfold int_truediv, of_ratio. cbn [Z.ltb Z.compare Z.abs].
  unfold SFdiv_core_binary.
  replace (Zdigits2 (Z.pos p) + 0 - (Zdigits2 (Z.pos p) + 0)) with 0 by lia.
  change (Z.min (fexp prec emax 0) (0 - 0)) with (-53).
  change (0 - 0 - -53) with 53.
  cbv beta iota zeta.
  assert (E : Z.div_eucl (Z.shiftl (Z.pos p) 53) (Z.pos p) = (2 ^ 53, 0)).
  { rewrite Z.shiftl_mul_pow2 by lia. set (k := 2 ^ 53).
    rewrite (Z.mul_comm (Z.pos p) k).
    generalize (Z.div_mul k (Z.pos p) ltac:(lia)), (Z.mod_mul k (Z.pos p) ltac:(lia)).
    unfold Z.div, Z.modulo.
    destruct (Z.div_eucl (k * Z.pos p) (Z.pos p)) as [q r].
    cbn [fst snd]. intros -> ->. reflexivity. }
  rewrite E.
  assert (L : new_location (Z.pos p) 0 = loc_Exact).
  { unfold new_location. destruct (Z.even (Z.pos p)); reflexivity. }
  rewrite L. vm_compute. reflexivity.
Qed.

Section WithClock.

Variable clock : nat -> datetime.

Lemma forallb_values_set (f : trace -> bool) (k : string) (v : trace) (d : dict trace) :
  f v = true -> forallb f (values d) = true -> forallb f (values (set k v d)) = true.
Proof.
  intros Hv. unfold values. induction d as [|[k0 v0] d IH]; simpl.
  - now rewrite Hv.
  - intros H. apply andb_prop in H. destruct H as [H0 Hd].
    destruct (String.eqb k k0); simpl.
    + now rewrite Hv, Hd.
    + now rewrite H0, IH.
Qed.

Lemma run_keeps_complete (w : world) (a b : string) :
  all_complete (self w) = true ->
  all_complete (self (snd (reconcile_amounts clock a b w))) = true.
Proof.
  intros H. rewrite reconcile_explicit. cbn [snd]. unfold all_complete, run_world.
  cbn [self trace_data]. apply forallb_values_set; [reflexivity | exact H].
Qed.

Lemma run_all_keeps_complete (inputs : list (string * string)) :
  forall w, all_complete (self w) = true ->
            all_complete (self (run_all clock inputs w)) = true.
Proof.
  induction inputs as [|[a b] rest IH]; intros w H; [exact H|].
  cbn [run_all]. apply IH. now apply run_keeps_complete.
Qed.

Lemma complete_no_error (l : list trace) :
  forallb complete l = true -> count has_error l = 0.
Proof.
  induction l as [|tr l IH]; [reflexivity|]. simpl. intros H.
  apply andb_prop in H. destruct H as [H0 Hl]. unfold complete in H0.
  apply andb_prop in H0. destruct H0 as [H0 _].
  apply andb_prop in H0. destruct H0 as [_ He].
  apply negb_true_iff in He. rewrite He, (IH Hl). reflexivity.
Qed.

Lemma fold_add_shift (l : list Z) : forall a, fold_left Z.add l a = a + fold_left Z.add l 0.
Proof.
  induction l as [|x l IH]; intros a; simpl; [lia|].
  rewrite (IH (a + x)), (IH x). lia.
Qed.

Lemma complete_three_steps (l : list trace) :
  forallb complete l = true ->
  sum_Z (map (fun tr => Z.of_nat (List.length (workflow_steps tr))) l)
  = 3 * Z.of_nat (List.length l).
Proof.
  unfold sum_Z. induction l as [|tr l IH]; [reflexivity|]. intros H.
  cbn [forallb] in H. apply andb_prop in H. destruct H as [H0 Hl]. unfold complete in H0.
  apply andb_prop in H0. destruct H0 as [_ H3]. apply Nat.eqb_eq in H3.
  cbn [map fold_left List.length]. rewrite fold_add_shift, (IH Hl), H3. lia.
Qed.

(** X7.  On a tracer that has only made runs, every trace of the store is
    sealed, carries no error and holds three steps; the metrics of the
    store, when it is not empty, report a failure rate of 0.0, a success
    rate of 1.0 and three steps per trace.  The branch of
    [reconcile_amounts] that records an error is never taken. *)
Theorem runs_never_fail (inputs : list (string * string)) (w : world) :
  all_complete (self w) = true ->
  all_complete (self (run_all clock inputs w)) = true
  /\ forall m,
       get_workflow_metrics (self (run_all clock inputs w)) = Some m ->
       failure_rate m = of_int 0 /\ success_rate m = of_int 1
       /\ total_thinking_steps m = 3 * total_executions m.
Proof.
  intros H. pose proof (run_all_keeps_complete inputs w H) as H'.
  split; [exact H'|]. intros m Hm.
  set (t := self (run_all clock inputs w)) in *.
  destruct (metrics_fields t m Hm) as (HN & En & Ef & Es & _ & _ & Et).
  cbv zeta in *. unfold all_complete in H'.
  rewrite (complete_no_error _ H') in Ef, Es.
  rewrite (complete_three_steps _ H') in Et.
  split; [exact Ef|]. split.
  - rewrite Es, Z.sub_0_r. now apply int_truediv_self.
  - now rewrite Et, En.
Qed.

(** Once there is a current trace, the runs keep one. *)
Lemma run_all_keeps_current (inputs : list (string * string)) :
  forall w, truthy (current_trace_id (self w)) = true ->
            truthy (current_trace_id (self (run_all clock inputs w))) = true.
Proof.
  induction inputs as [|[a b] rest IH]; intros w H; [exact H|].
  cbn [run_all]. apply IH. rewrite reconcile_explicit. reflexivity.
Qed.

(** X8.  After at least one run the live state reports the status
    "running", although no run is in progress: the current trace is never
    reset, so the status does not return to "idle"; on the tracer as
    constructed it is "idle". *)
Theorem status_after_runs (a b : string) (rest : list (string * string)) (w : world) :
  workflow_status (get_live_workflow_state (self (run_all clock ((a, b) :: rest) w)))
  = "running"
  /\ workflow_status (get_live_workflow_state init) = "idle"
  /\ 1 <= total_traces (get_live_workflow_state (self (snd (reconcile_amounts clock a b w)))).
Proof.
  split; [|split; [reflexivity|]].
  - unfold get_live_workflow_state. cbn [workflow_status run_all].
    rewrite run_all_keeps_current; [reflexivity|].
    rewrite reconcile_explicit. reflexivity.
  - unfold get_live_workflow_state. cbn [total_traces].
    rewrite reconcile_explicit. unfold run_world. cbn [snd self trace_data].
    pose proof (set_nonempty (fresh_id clock w) (run_trace clock a b w)
                  (trace_data (self w))) as Hne.
    destruct (set (fresh_id clock w) (run_trace clock a b w) (trace_data (self w)));
      [contradiction|].
    cbn [List.length]. lia.
Qed.

End WithClock.

Lemma runs_never_fail_witness :
  let clock := fun n => Datetime 2025 1 2 3 4 (Z.of_nat n) 0 in
  let w := mkWorld init 0 [] in
  let inputs := [("$500.00", "$400.00"); ("garbage", "")] in
  all_complete (self (run_all clock inputs w)) = true
  /\ forall m,
       get_workflow_metrics (self (run_all clock inputs w)) = Some m ->
       failure_rate m = of_int 0 /\ success_rate m = of_int 1
       /\ total_thinking_steps m = 3 * total_executions m.
Proof.
  intros clock w inputs. apply (runs_never_fail clock inputs w). reflexivity.
Defined.

End RunsFacts.

(** ** Exports *)

Module ExportFacts.
Import PyStr PyFloat Py FloatText PyDict PyTime Extract Tracer Notions MoreNotions.
Import StoreNotions PyDictFacts RunFacts RunWorldFacts ExtractFacts.

Lemma uint_digits (d : Decimal.uint) :
  all_chars is_digit (NilEmpty.string_of_uint d) = true.
Proof. induction d; simpl; auto. Qed.

Lemma of_Z_digits (n : Z) : all_chars is_digit (of_Z n) = true.
Proof.
  unfold of_Z, NilZero.string_of_uint.
  destruct (N.to_uint (Z.to_N n)) eqn:E; try reflexivity;
    rewrite <- E; apply uint_digits.
Qed.

Lemma zeros_digits (k : nat) : all_chars is_digit (zeros k) = true.
Proof. induction k; simpl; auto. Qed.

Lemma pad0_digits (k : nat) (n : Z) : all_chars is_digit (pad0 k n) = true.
Proof.
  unfold pad0. cbv zeta. now rewrite all_chars_app, zeros_digits, of_Z_digits.
Qed.

Lemma digit_no_slash (c : ascii) : is_digit c = true -> negb (is_slash c) = true.
Proof.
  intros H. unfold is_slash, char_eqb.
  destruct (Ascii.eqb c "/") eqn:E; [|reflexivity].
  apply Ascii.eqb_eq in E. subst c. discriminate.
Qed.

Lemma pad0_no_slash (k : nat) (n : Z) : no_slash (pad0 k n) = true.
Proof.
  unfold no_slash. apply (all_chars_impl is_digit); [apply digit_no_slash | apply pad0_digits].
Qed.

(** The identifiers made from the clock hold no slash. *)
Lemma fresh_id_no_slash (clock : nat -> datetime) (w : world) :
  no_slash (fresh_id clock w) = true.
Proof.
  unfold fresh_id, strftime_compact, no_slash.
  repeat rewrite all_chars_app. fold (no_slash).
  repeat (rewrite pad0_no_slash). reflexivity.
Qed.

Lemma list_of_app (a b : string) :
  list_ascii_of_string (a ++ b) = (list_ascii_of_string a ++ list_ascii_of_string b)%list.
Proof. induction a as [|c a IH]; simpl; [reflexivity|]. now rewrite IH. Qed.

Lemma all_chars_forallb (f : ascii -> bool) (s : string) :
  all_chars f s = forallb f (list_ascii_of_string s).
Proof. induction s as [|c s IH]; simpl; [reflexivity|]. now rewrite IH. Qed.

Lemma forallb_rev (f : ascii -> bool) (l : list ascii) :
  forallb f (rev l) = forallb f l.
Proof.
  induction l as [|c l IH]; simpl; [reflexivity|].
  rewrite forallb_app, IH. simpl. rewrite andb_true_r. apply andb_comm.
Qed.

Lemma drop_while_all (f : ascii -> bool) (l rest : list ascii) :
  forallb f l = true -> drop_while f (l ++ rest)%list = drop_while f rest.
Proof.
  induction l as [|c l IH]; simpl; [reflexivity|].
  intros H. apply andb_prop in H. destruct H as [Hc Hl]. now rewrite Hc, IH.
Qed.

(** A path without a slash has the empty directory name. *)
Lemma dirname_bare (p : string) : no_slash p = true -> dirname p = "".
Proof.
  intros H. unfold dirname. cbv zeta.
  unfold no_slash in H. rewrite all_chars_forallb, <- forallb_rev in H.
  rewrite <- (app_nil_r (rev (list_ascii_of_string p))).
  rewrite (drop_while_all _ _ [] H). reflexivity.
Qed.

(** The directory name of a file directly under "output". *)
Lemma dirname_output (s : string) : no_slash s = true -> dirname ("output/" ++ s) = "output".
Proof.
  intros H. unfold dirname. cbv zeta.
  unfold no_slash in H. rewrite all_chars_forallb, <- forallb_rev in H.
  rewrite list_of_app, rev_app_distr.
  rewrite (drop_while_all _ _ _ H). reflexivity.
Qed.

Lemma default_path_dirname (id : string) :
  no_slash id = true -> dirname (default_export_path id) = "output".
Proof.
  intros H. unfold default_export_path. apply dirname_output.
  unfold no_slash in *. now rewrite all_chars_app, H.
Qed.

Section WithFiles.

Variable clock : nat -> datetime.
Variable makedirs_fails : string -> option exn.
Variable write_fails : string -> export_doc -> option exn.

(** X9.  An export without arguments after a run addresses the file
    "output/<id>_reconciliation_enhanced.json" for the identifier of that
    run, and its directory is "output".  An exception of [os.makedirs]
    leaves the method as it is, the world unchanged; a failure while
    writing gives [False]; otherwise [True] is returned and exactly one
    document is added, holding the trace of the run and the metrics. *)
Theorem export_after_run (w : world) (a b : string) :
  let w1 := snd (reconcile_amounts clock a b w) in
  let path := default_export_path (fresh_id clock w) in
  let tr := run_trace clock a b w in
  let doc := mkExport (tr, get_observability tr) (get_workflow_metrics (self w1))
                      (clock (clock_reads w1)) "reconciliation_enhanced_tracing" in
  dirname path = "output"
  /\ export_trace_to_json clock makedirs_fails write_fails None None w1
     = match makedirs_fails "output" with
       | Some e => (inl e, w1)
       | None =>
           match write_fails path doc with
           | Some _ => (inr false, mkWorld (self w1) (S (clock_reads w1)) (files w1))
           | None =>
               (inr true,
                mkWorld (self w1) (S (clock_reads w1)) (files w1 ++ [(path, doc)])%list)
           end
       end.
Proof.
  intros w1 path tr doc.
  assert (Hd : dirname path = "output")
    by (apply default_path_dirname, fresh_id_no_slash).
  split; [exact Hd|].
  assert (Hc : current_trace_id (self w1) = Some (fresh_id clock w)).
  { unfold w1. rewrite reconcile_explicit. reflexivity. }
  assert (Hg : get_trace (self w1) None = Some (tr, get_observability tr)).
  { unfold get_trace. cbv zeta. cbn [truthy]. rewrite Hc.
    rewrite (fresh_id_truthy clock w).
    unfold w1. rewrite reconcile_explicit. unfold run_world. cbn [snd self trace_data].
    rewrite get_set_same. reflexivity. }
  unfold export_trace_to_json, mbind, get_self. rewrite Hg. cbv zeta.
  cbn [truthy]. rewrite Hc. fold (default_export_path (fresh_id clock w)). fold path.
  rewrite Hd. unfold makedirs. cbn [String.eqb Ascii.eqb Bool.eqb].
  destruct (makedirs_fails "output") as [e|]; [reflexivity|].
  unfold ret, now, try_except, write_json, mbind. cbn [self clock_reads files].
  fold doc. destruct (write_fails path doc); reflexivity.
Qed.

(** X10.  An export to a given path that holds no directory part (no
    slash) raises [FileNotFoundError] for every trace that exists: the
    empty directory name goes to [os.makedirs], which is called outside
    the [try] block.  Nothing is written. *)
Theorem export_to_bare_filename (w : world) (trace_id0 : option string) (p : string) :
  p <> "" ->
  no_slash p = true ->
  get_trace (self w) trace_id0 <> None ->
  export_trace_to_json clock makedirs_fails write_fails trace_id0 (Some p) w
  = (inl (FileNotFoundError ("[Errno 2] No such file or directory: " ++ repr "")), w).
Proof.
  intros Hp Hs Hg.
  unfold export_trace_to_json, mbind, get_self.
  destruct (get_trace (self w) trace_id0) as [tr|]; [|contradiction].
  cbv zeta.
  assert (Ht : truthy (Some p) = true).
  { unfold truthy. destruct p; [contradiction|reflexivity]. }
  rewrite Ht, (dirname_bare p Hs). reflexivity.
Qed.

End WithFiles.

Lemma export_to_bare_filename_witness :
  let clock := fun n => Datetime 2025 1 2 3 4 (Z.of_nat n) 0 in
  let w := snd (reconcile_amounts clock "10" "10" (mkWorld init 0 [])) in
  export_trace_to_json clock (fun _ => None) (fun _ _ => None) None (Some "trace.json") w
  = (inl (FileNotFoundError ("[Errno 2] No such file or directory: " ++ repr "")), w).
Proof.
  intros clock w.
  apply (export_to_bare_filename clock (fun _ => None) (fun _ _ => None) w None "trace.json").
  - discriminate.
  - reflexivity.
  - vm_compute. discriminate.
Defined.

End ExportFacts.

(** ** Which texts hold a number *)

Module DigitFacts.
Import PyStr PyFloat Py FloatText Regex Extract Notions TextNotions MoreNotions ExtractFacts.

Lemma digits_app (a b : string) : digits_of (a ++ b) = digits_of a ++ digits_of b.
Proof.
  induction a as [|c a IH]; simpl; [reflexivity|].
  destruct (is_digit c); simpl; now rewrite IH.
Qed.









(** *** The search finds a number exactly when there is a digit *)








End DigitFacts.

(** ** The reconciliation step of the application *)

Module AppFacts.
Import PyStr PyFloat Py FloatText PyDict PyTime Regex Extract Tracer Notions MoreNotions.
Import App RunFacts DecisionFacts RunWorldFacts.

Section WithClock.

Variable clock : nat -> datetime.

(** X12.  When neither amount is the text "0", the reconciliation step of
    the application returns what [reconcile_amounts] returns and leaves the
    tracer as the run leaves it: the handler that would show
    "Reconciliation failed" is never entered.  When one of the amounts is
    the text "0", the tracer is not called at all. *)
Theorem reconciliation_step_runs (a b : string) (w : world) :
  a <> "0" -> b <> "0" ->
  reconciliation_step clock a b w = reconcile_amounts clock a b w
  /\ (exists v, fst (reconciliation_step clock a b w) = inr v
                /\ prefix_b "Reconciliation failed" v = false)
  /\ (forall c, snd (reconciliation_step clock "0" c w) = w
                /\ snd (reconciliation_step clock c "0" w) = w).
Proof.
  intros Ha Hb.
  assert (E : reconciliation_step clock a b w = reconcile_amounts clock a b w).
  { unfold reconciliation_step.
    apply String.eqb_neq in Ha. apply String.eqb_neq in Hb. rewrite Ha, Hb.
    cbn [negb andb]. rewrite reconcile_explicit.
    apply try_except_ok. apply reconcile_explicit. }
  split; [exact E|]. split.
  - rewrite E, reconcile_explicit. cbn [fst]. eexists. split; [reflexivity|].
    unfold run_final.
    destruct (verdict_stage_fields (run_compared clock a b w)) as (_ & _ & _ & ->).
    reflexivity.
  - intros c. unfold reconciliation_step.
    change (String.eqb "0" "0") with true. cbn [negb andb]. rewrite andb_false_r.
    destruct (negb (String.eqb c "0")); split; reflexivity.
Qed.

End WithClock.

Lemma reconciliation_step_runs_witness :
  let clock := fun n => Datetime 2025 1 2 3 4 (Z.of_nat n) 0 in
  let w := mkWorld init 0 [] in
  reconciliation_step clock "$1,200.00" "$1,200.00" w
  = reconcile_amounts clock "$1,200.00" "$1,200.00" w
  /\ (exists v, fst (reconciliation_step clock "$1,200.00" "$1,200.00" w) = inr v
                /\ prefix_b "Reconciliation failed" v = false)
  /\ (forall c, snd (reconciliation_step clock "0" c w) = w
                /\ snd (reconciliation_step clock c "0" w) = w).
Proof.
  intros clock w. apply (reconciliation_step_runs clock "$1,200.00" "$1,200.00" w);
    discriminate.
Defined.

End AppFacts.

(** ** The number test of the spreadsheet agent *)

Module SpreadsheetFacts.
Import PyStr PyFloat Py FloatText Regex Extract Notions MoreNotions Spreadsheet ExtractFacts.

(** A text without the first character of [old] holds no occurrence of
    it. *)
Lemma replace_absent (a : ascii) (old s : string) :
  all_chars (fun c => negb (char_eqb a c)) s = true ->
  replace (String a old) "" s = s.
Proof.
  unfold replace. induction s as [|c s IH]; [reflexivity|].
  cbn [all_chars]. intros H. apply andb_prop in H. destruct H as [Hc Hs].
  cbn [replace_go prefix_b]. apply negb_true_iff in Hc. rewrite Hc.
  cbn [andb]. now rewrite (IH Hs).
Qed.

Lemma numeric_not (a : ascii) (s : string) :
  is_numeric a = false ->
  all_chars is_numeric s = true -> all_chars (fun c => negb (char_eqb a c)) s = true.
Proof.
  intros Ha. apply all_chars_impl. intros c Hc.
  unfold char_eqb. destruct (Ascii.eqb a c) eqn:E; [|reflexivity].
  apply Ascii.eqb_eq in E. subst c. congruence.
Qed.

(** X13.  [_is_convertible_to_number] accepts every text of the shape that
    [_extract_number] searches for, an optional sign, digits and at most
    one point before the last run of digits; it rejects the text "nan"
    but accepts "NaN" and "inf". *)
Theorem number_tokens_are_convertible (t : string) :
  in_lang number_pattern t ->
  _is_convertible_to_number t = inr true
  /\ _is_convertible_to_number "nan" = inr false
  /\ _is_convertible_to_number "NaN" = inr true
  /\ _is_convertible_to_number "inf" = inr true.
Proof.
  intros Ht. split; [|repeat split].
  destruct (number_token_parses t Ht) as [(x & Hx & _) Hne].
  destruct (number_token_shape t Ht) as (sg & body & _ & _ & _ & Hnum & _).
  unfold _is_convertible_to_number.
  unfold nonempty in Hne. apply negb_true_iff in Hne. rewrite Hne.
  cbv zeta.
  rewrite (replace_absent "$" "" t) by (now apply numeric_not).
  rewrite (replace_absent "," "" t) by (now apply numeric_not).
  rewrite (replace_absent "%" "" t) by (now apply numeric_not).
  rewrite strip_no_space by (apply (all_chars_impl is_numeric); [apply numeric_not_space|exact Hnum]).
  rewrite Hne. cbn [negb andb].
  assert (Hn : String.eqb t "nan" = false).
  { destruct t as [|c t']; [reflexivity|]. cbn [all_chars] in Hnum.
    apply andb_prop in Hnum. destruct Hnum as [Hc _].
    cbn [String.eqb]. destruct (Ascii.eqb c "n") eqn:E; [|reflexivity].
    apply Ascii.eqb_eq in E. subst c. discriminate. }
  rewrite Hn, Hx. reflexivity.
Qed.

Lemma number_tokens_are_convertible_witness :
  _is_convertible_to_number "-12.50" = inr true
  /\ _is_convertible_to_number "nan" = inr false
  /\ _is_convertible_to_number "NaN" = inr true
  /\ _is_convertible_to_number "inf" = inr true.
Proof.
  apply number_tokens_are_convertible.
  cbn [in_lang number_pattern].
  exists "-", "12.50". split; [reflexivity|]. split; [reflexivity|]. split; [simpl; lia|].
  exists "12", ".50". split; [reflexivity|]. split; [reflexivity|]. split; [exact I|].
  exists ".", "50". split; [reflexivity|]. split; [reflexivity|]. split; [simpl; lia|].
  exists "50", "". split; [reflexivity|]. split; [reflexivity|]. split; [simpl; lia|].
  reflexivity.
Defined.

End SpreadsheetFacts.

(** ** The total of the spreadsheet agent, read by the application and by
    the reconciliation *)

Module AmountFacts.
Import PyStr PyFloat Py FloatText Regex Extract Tracer Notions MoreNotions.
Import FloatNotions AmountNotions App Spreadsheet.
Import ExtractFacts ExportFacts SpreadsheetFacts.

(** *** The shape of the text *)

Lemma exact_positive (m : positive) (e : Z) : 0 < fst (exact m e) /\ 0 < snd (exact m e).
Proof.
  unfold exact. destruct (0 <=? e) eqn:E; cbn [fst snd].
  - apply Z.leb_le in E. split; [|lia].
    pose proof (Z.pow_pos_nonneg 2 e ltac:(lia) E). nia.
  - apply Z.leb_gt in E. split; [lia|]. apply Z.pow_pos_nonneg; lia.
Qed.

Lemma round_half_even_nonneg (n d : Z) : 0 <= n -> 0 < d -> 0 <= round_half_even n d.
Proof.
  intros Hn Hd. unfold round_half_even. cbv zeta.
  pose proof (Z.div_pos n d Hn Hd).
  destruct (2 * (n mod d) <? d); [lia|].
  destruct (d <? 2 * (n mod d)); [lia|].
  destruct (Z.even (n / d)); lia.
Qed.

Lemma cents_nonneg (x : float) : 0 <= cents x.
Proof.
  destruct x as [s|s| |s m e]; cbn [cents]; try lia.
  pose proof (exact_positive m e) as [Hn Hd].
  destruct (exact m e) as [n d]. cbn [fst snd] in *.
  apply round_half_even_nonneg; lia.
Qed.

Lemma format_shape (x : float) :
  is_finite x = true ->
  format_2f true x
  = sign_str (sign_of x) ++ group3 (of_Z (cents x / 100)) ++ "." ++ pad0 2 (cents x mod 100).
Proof.
  destruct x as [s|s| |s m e]; try discriminate; intros _.
  - destruct s; reflexivity.
  - unfold format_2f, cents, sign_of. destruct (exact m e) as [n d]. reflexivity.
Qed.

Lemma pad2_spec (r : Z) :
  0 <= r < 100 ->
  exists d1 d2,
    pad0 2 r = String d1 (String d2 "")
    /\ is_digit d1 = true /\ is_digit d2 = true
    /\ 10 * digit_val d1 + digit_val d2 = r.
Proof.
  intros Hr.
  assert (H : forallb two_digits_ok (seq 0 100) = true) by (vm_compute; reflexivity).
  rewrite forallb_forall in H.
  specialize (H (Z.to_nat r)). rewrite in_seq in H. specialize (H ltac:(lia)).
  unfold two_digits_ok in H. rewrite Z2Nat.id in H by lia.
  destruct (pad0 2 r) as [|d1 [|d2 [|]]]; try discriminate.
  apply andb_prop in H. destruct H as [H H3].
  apply andb_prop in H. destruct H as [H1 H2].
  apply Z.eqb_eq in H3. now exists d1, d2.
Qed.

Lemma of_Z_nonempty (n : Z) : exists c s, of_Z n = String c s /\ is_digit c = true.
Proof.
  pose proof (of_Z_digits n) as H.
  unfold of_Z, NilZero.string_of_uint in *.
  destruct (N.to_uint (Z.to_N n)) eqn:E;
    try (eexists; eexists; split; [reflexivity|reflexivity]).
Qed.

(** *** The value of a numeral *)

Lemma uint_val_string (d : Decimal.uint) :
  forall acc, digits_val (NilEmpty.string_of_uint d) acc = uint_val d acc.
Proof. induction d; intros acc; cbn [NilEmpty.string_of_uint digits_val uint_val]; auto. Qed.

Lemma of_uint_acc_val (d : Decimal.uint) :
  forall acc, Zpos (Pos.of_uint_acc d acc) = uint_val d (Zpos acc).
Proof.
  induction d; intros acc; cbn [Pos.of_uint_acc uint_val]; try reflexivity;
    rewrite IHd; f_equal; lia.
Qed.

Lemma of_uint_val (d : Decimal.uint) : Z.of_N (N.of_uint d) = uint_val d 0.
Proof.
  unfold N.of_uint.
  induction d; cbn [Pos.of_uint uint_val]; try reflexivity; try exact IHd;
    cbn [Z.of_N]; rewrite of_uint_acc_val; reflexivity.
Qed.

(** Reading the numeral of [n] gives [n]. *)
Lemma of_Z_val (n : Z) : 0 <= n -> digits_val (of_Z n) 0 = n.
Proof.
  intros Hn. unfold of_Z, NilZero.string_of_uint.
  pose proof (of_uint_val (N.to_uint (Z.to_N n))) as H.
  rewrite DecimalN.Unsigned.of_to, Z2N.id in H by exact Hn.
  destruct (N.to_uint (Z.to_N n)) eqn:E; try (rewrite uint_val_string; now rewrite <- H).
  cbn [uint_val] in H. subst n. reflexivity.
Qed.

Lemma scan_digits_val (u : string) :
  all_chars is_digit u = true ->
  forall v acc n,
    scan_digits (u ++ v) acc n = scan_digits v (digits_val u acc) (n + String.length u).
Proof.
  induction u as [|c u IH]; intros Hu v acc n.
  - cbn [append digits_val String.length]. now rewrite Nat.add_0_r.
  - cbn [all_chars] in Hu. apply andb_prop in Hu. destruct Hu as [Hc Hu].
    cbn [append scan_digits digits_val String.length]. rewrite Hc, (IH Hu).
    f_equal. lia.
Qed.

(** The numeral of an amount in cents reads as that many hundredths. *)
Lemma parse_cents (c : Z) :
  0 <= c ->
  parse_decimal (of_Z (c / 100) ++ "." ++ pad0 2 (c mod 100)) = Some (c, -2).
Proof.
  intros Hc.
  assert (Hq : 0 <= c / 100) by (apply Z.div_pos; lia).
  pose proof (Z.mod_pos_bound c 100 ltac:(lia)) as Hr.
  destruct (pad2_spec _ Hr) as (d1 & d2 & -> & H1 & H2 & Hv).
  destruct (of_Z_nonempty (c / 100)) as (c0 & s0 & E0 & _).
  unfold parse_decimal.
  rewrite (scan_digits_val _ (of_Z_digits (c / 100))), (of_Z_val _ Hq).
  cbn [append scan_digits]. change (is_digit ".") with false.
  change (char_eqb "." "_") with false. cbn [andb].
  change (String d1 (String d2 "")) with (String d1 (String d2 "") ++ "").
  rewrite scan_digits_val by (cbn [all_chars]; now rewrite H1, H2).
  cbn [scan_digits digits_val String.length Nat.add].
  rewrite E0. cbn [String.length Nat.add Nat.eqb].
  f_equal. f_equal. pose proof (Z.div_mod c 100 ltac:(lia)). lia.
Qed.

(** *** The cleaning *)

Lemma replace1_app (a : ascii) (u v : string) :
  replace (String a "") "" (u ++ v)
  = replace (String a "") "" u ++ replace (String a "") "" v.
Proof.
  unfold replace. induction u as [|c u IH]; [reflexivity|].
  cbn [append replace_go prefix_b String.length Nat.pred].
  destruct (char_eqb a c).
  - destruct u; destruct v; cbn [andb prefix_b append]; exact IH.
  - cbn [andb append]. now rewrite IH.
Qed.

Lemma digits_no (a : ascii) (s : string) :
  is_digit a = false -> all_chars is_digit s = true ->
  all_chars (fun c => negb (char_eqb a c)) s = true.
Proof.
  intros Ha. apply all_chars_impl. intros c Hc.
  unfold char_eqb. destruct (Ascii.eqb a c) eqn:E; [|reflexivity].
  apply Ascii.eqb_eq in E. subst c. congruence.
Qed.

(** Removing the commas undoes the grouping. *)
Lemma ungroup (ds : string) :
  all_chars is_digit ds = true -> replace "," "" (group3 ds) = ds.
Proof.
  unfold group3. induction ds as [|c ds IH]; [reflexivity|]. intros H.
  cbn [all_chars] in H. apply andb_prop in H. destruct H as [Hc Hd].
  cbn [group3_go].
  change (String c ((if ((0 <? String.length ds) && (String.length ds mod 3 =? 0))%nat
                     then "," else "") ++ group3_go ds))
    with (String c "" ++ ((if ((0 <? String.length ds) && (String.length ds mod 3 =? 0))%nat
                           then "," else "") ++ group3_go ds)).
  rewrite !replace1_app, (IH Hd).
  rewrite (replace_absent "," "" (String c ""))
    by (apply digits_no; [reflexivity | cbn [all_chars]; now rewrite Hc]).
  destruct ((0 <? String.length ds) && (String.length ds mod 3 =? 0))%nat; reflexivity.
Qed.

Lemma group3_chars (ds : string) :
  all_chars is_digit ds = true -> all_chars is_digit_or_comma (group3 ds) = true.
Proof.
  unfold group3. induction ds as [|c ds IH]; [reflexivity|]. intros H.
  cbn [all_chars] in H. apply andb_prop in H. destruct H as [Hc Hd].
  cbn [group3_go all_chars]. unfold is_digit_or_comma at 1. rewrite Hc. cbn [orb andb].
  rewrite all_chars_app, (IH Hd).
  destruct ((0 <? String.length ds) && (String.length ds mod 3 =? 0))%nat; reflexivity.
Qed.

(** *** The searches *)

Lemma star_match_all (cls : ascii -> bool) (k : string -> option nat) (u r : string) (n : nat) :
  all_chars cls u = true ->
  match r with String c _ => cls c = false | EmptyString => True end ->
  k r = Some n ->
  star_match cls k (u ++ r) = Some (String.length u + n)%nat.
Proof.
  intros Hu Hr Hk. induction u as [|a u IH].
  - cbn [append String.length Nat.add]. destruct r as [|c r]; [exact Hk|].
    cbn [star_match]. now rewrite Hr.
  - cbn [all_chars] in Hu. apply andb_prop in Hu. destruct Hu as [Ha Hu].
    cbn [append star_match String.length]. now rewrite Ha, (IH Hu).
Qed.

Lemma findall_skip_all (p : pattern) :
  match_here p "" = None -> forall s, findall_go p (String.length s) s = [].
Proof.
  intros Hp. induction s as [|c s IH]; cbn [findall_go String.length].
  - now rewrite Hp.
  - exact IH.
Qed.

Lemma findall_whole (p : pattern) (c : ascii) (s : string) :
  match_here p "" = None ->
  match_here p (String c s) = Some (String.length (String c s)) ->
  findall p (String c s) = [String c s].
Proof.
  intros H0 H. unfold findall. cbn [findall_go]. rewrite H.
  cbn [String.length Nat.pred]. rewrite (findall_skip_all p H0).
  f_equal. change (S (String.length s)) with (String.length (String c s)).
  rewrite <- (append_nil (String c s)) at 2. apply substring_prefix.
Qed.

(** The text of the amount without its sign: digits, a point, two
    digits. *)
Lemma number_matches_cents (q r : Z) (rest : string) :
  0 <= r < 100 ->
  star_match is_digit
    (fun s0 =>
       match one_match is_dot (one_match is_digit (star_match is_digit (fun _ => Some O))) s0 with
       | Some n => Some n
       | None => one_match is_digit (star_match is_digit (fun _ => Some O)) s0
       end)
    (of_Z q ++ "." ++ pad0 2 r)
  = Some (String.length (of_Z q ++ "." ++ pad0 2 r)).
Proof.
  intros Hr. destruct (pad2_spec _ Hr) as (d1 & d2 & -> & H1 & H2 & _).
  rewrite (star_match_all _ _ (of_Z q) _ 3 (of_Z_digits q)).
  - now rewrite length_append.
  - reflexivity.
  - cbn [append one_match]. change (is_dot ".") with true. cbn [one_match].
    rewrite H1. cbn [star_match]. rewrite H2. reflexivity.
Qed.

Lemma amount_text_numeric (x : float) :
  all_chars is_numeric
    (sign_str (sign_of x) ++ of_Z (cents x / 100) ++ "." ++ pad0 2 (cents x mod 100)) = true.
Proof.
  rewrite !all_chars_app.
  rewrite (all_chars_impl is_digit is_numeric _
             (fun c Hc => ltac:(unfold is_numeric; rewrite Hc; now rewrite orb_true_r))
             (of_Z_digits _)).
  rewrite (all_chars_impl is_digit is_numeric _
             (fun c Hc => ltac:(unfold is_numeric; rewrite Hc; now rewrite orb_true_r))
             (pad0_digits _ _)).
  destruct (sign_of x); reflexivity.
Qed.

Lemma digit_not_sign (c : ascii) : is_digit c = true -> is_sign c = false.
Proof.
  intros H. unfold is_sign, char_eqb.
  destruct (Ascii.eqb c "-") eqn:E1; [apply Ascii.eqb_eq in E1; subst c; discriminate|].
  destruct (Ascii.eqb c "+") eqn:E2; [apply Ascii.eqb_eq in E2; subst c; discriminate|].
  reflexivity.
Qed.

Lemma cleaned_total (x : float) :
  is_finite x = true ->
  cleaned (total_amount_text x)
  = sign_str (sign_of x) ++ of_Z (cents x / 100) ++ "." ++ pad0 2 (cents x mod 100).
Proof.
  intros Hf. unfold total_amount_text. rewrite (format_shape x Hf).
  set (Q := of_Z (cents x / 100)). set (F := pad0 2 (cents x mod 100)).
  assert (HQ : all_chars is_digit Q = true) by apply of_Z_digits.
  assert (HF : all_chars is_digit F = true) by apply pad0_digits.
  assert (Hnum : all_chars is_numeric (sign_str (sign_of x) ++ Q ++ "." ++ F) = true)
    by apply amount_text_numeric.
  assert (Hsg : forall a, is_numeric a = false ->
                          replace (String a "") "" (sign_str (sign_of x)) = sign_str (sign_of x)).
  { intros a Ha. apply replace_absent. apply numeric_not; [exact Ha|].
    destruct (sign_of x); reflexivity. }
  unfold cleaned. set (dot := ".") in *.
  rewrite !(replace1_app "$"). change (replace "$" "" "$") with "".
  change (replace "$" "" dot) with dot.
  rewrite (Hsg "$"%char eq_refl).
  rewrite (replace_absent "$" "" (group3 Q)).
  2:{ apply (all_chars_impl is_digit_or_comma); [|now apply group3_chars].
      intros c Hc. unfold char_eqb. destruct (Ascii.eqb "$" c) eqn:E; [|reflexivity].
      apply Ascii.eqb_eq in E. subst c. discriminate. }
  rewrite (replace_absent "$" "" F) by (apply digits_no; [reflexivity|exact HF]).
  change ("" ++ sign_str (sign_of x) ++ group3 Q ++ dot ++ F)
    with (sign_str (sign_of x) ++ group3 Q ++ dot ++ F).
  rewrite !(replace1_app ","). change (replace "," "" dot) with dot.
  rewrite (Hsg ","%char eq_refl), (ungroup Q HQ).
  rewrite (replace_absent "," "" F) by (apply digits_no; [reflexivity|exact HF]).
  unfold euro, pound.
  rewrite (replace_absent (ascii_of_nat 226) _ _ (numeric_not (ascii_of_nat 226) _ eq_refl Hnum)).
  rewrite (replace_absent (ascii_of_nat 194) _ _ (numeric_not (ascii_of_nat 194) _ eq_refl Hnum)).
  apply strip_no_space.
  apply (all_chars_impl is_numeric); [apply numeric_not_space|exact Hnum].
Qed.

(** X14.  The text that the spreadsheet agent stores for a finite total,
    a dollar sign, the sign, the grouped integer part and two decimals, is
    read by [_extract_number] as one number: the float nearest to the
    total rounded to cents, with the sign of the total. *)
Theorem total_is_read_back (x : float) :
  is_finite x = true ->
  _extract_number (total_amount_text x) = inr (Some (of_cents (sign_of x) (cents x))).
Proof.
  intros Hf.
  pose proof (cents_nonneg x) as Hc.
  pose proof (Z.mod_pos_bound (cents x) 100 ltac:(lia)) as Hr.
  pose proof (cleaned_total x Hf) as Hcl.
  pose proof (amount_text_numeric x) as Hnum.
  pose proof (parse_cents (cents x) Hc) as Hpd.
  pose proof (number_matches_cents (cents x / 100) _ "" Hr) as Hk1.
  destruct (of_Z_nonempty (cents x / 100)) as (c0 & s0 & E0 & Hc0).
  set (body := of_Z (cents x / 100) ++ "." ++ pad0 2 (cents x mod 100)) in *.
  assert (Eb : body = String c0 (s0 ++ "." ++ pad0 2 (cents x mod 100))).
  { unfold body. rewrite E0. reflexivity. }
  assert (Hun : starts_unsigned body = true).
  { rewrite Eb. cbn [starts_unsigned]. now rewrite Hc0. }
  set (T := sign_str (sign_of x) ++ body) in *.
  assert (Hm : match_here number_pattern T = Some (String.length T)).
  { unfold number_pattern, T. cbn [match_here].
    destruct (sign_of x); cbn [sign_str append].
    - cbn [one_match]. change (is_sign "-") with true. cbv beta iota.
      rewrite Hk1. reflexivity.
    - rewrite Eb at 1. cbn [one_match]. rewrite (digit_not_sign c0 Hc0).
      exact Hk1. }
  assert (HT : exists c1 s1, T = String c1 s1).
  { unfold T. destruct (sign_of x); cbn [sign_str append]; [eauto|].
    rewrite Eb. eauto. }
  destruct HT as (c1 & s1 & ET).
  assert (Hfind : findall number_pattern T = [T]).
  { rewrite ET. apply findall_whole; [reflexivity|]. rewrite <- ET. exact Hm. }
  assert (Hparse : float_of_str T = inr (of_cents (sign_of x) (cents x))).
  { unfold float_of_str, parse_float.
    rewrite float_strip_no_space
      by (apply (all_chars_impl is_numeric); [apply numeric_not_space|exact Hnum]).
    assert (Hs : split_sign T = (sign_of x, body)).
    { unfold T. destruct (sign_of x); cbn [sign_str append]; [reflexivity|].
      now apply split_sign_unsigned. }
    rewrite Hs.
    destruct (unsigned_not_a_name body Hun) as (N1 & N2 & N3).
    rewrite N1, N2, N3. cbn [orb]. rewrite Hpd. reflexivity. }
  unfold _extract_number.
  change (String.eqb (total_amount_text x) "") with false. cbv iota.
  unfold extract_body. cbv zeta.
  change (strip (replace pound "" (replace euro "" (replace "," ""
            (replace "$" "" (total_amount_text x))))))
    with (cleaned (total_amount_text x)).
  rewrite Hcl. fold body. fold T. rewrite Hfind.
  assert (Hn : nonempty T = true) by (rewrite ET; reflexivity).
  cbn [filter]. rewrite Hn. cbn [traverse]. rewrite Hparse. reflexivity.
Qed.

Lemma total_is_read_back_witness :
  let x := of_dec true 12345678 (-1) in
  total_amount_text x = "$-1,234,567.80"
  /\ _extract_number (total_amount_text x) = inr (Some (of_cents (sign_of x) (cents x))).
Proof.
  intros x. split; [vm_compute; reflexivity|].
  apply (total_is_read_back x). reflexivity.
Defined.

(** *** The pattern of the application *)

Lemma no_dollar_no_amount (s : string) :
  all_chars (fun c => negb (is_dollar c)) s = true ->
  forall skip, findall_go amount_pattern skip s = [].
Proof.
  induction s as [|c s IH]; intros H skip.
  - destruct skip; reflexivity.
  - cbn [all_chars] in H. apply andb_prop in H. destruct H as [Hc Hs].
    apply negb_true_iff in Hc.
    cbn [findall_go]. destruct skip; [|now apply IH].
    unfold amount_pattern at 1. cbn [match_here one_match]. rewrite Hc.
    now apply IH.
Qed.

(** X15.  The application takes the text of a finite total that is not
    negative whole, as the spreadsheet amount.  From the text of a total
    with a minus sign it takes nothing: the amount is the text "0", for
    which the reconciliation is not run. *)
Theorem app_picks_up_total (x : float) :
  is_finite x = true ->
  spreadsheet_amount_of (Some (total_amount_text x))
  = if sign_of x then "0" else total_amount_text x.
Proof.
  intros Hf.
  pose proof (cents_nonneg x) as Hc.
  pose proof (Z.mod_pos_bound (cents x) 100 ltac:(lia)) as Hr.
  destruct (pad2_spec _ Hr) as (d1 & d2 & EF & H1 & H2 & _).
  destruct (of_Z_nonempty (cents x / 100)) as (c0 & s0 & E0 & Hc0).
  pose proof (group3_chars _ (of_Z_digits (cents x / 100))) as HG.
  unfold spreadsheet_amount_of, total_amount_text.
  rewrite (format_shape x Hf).
  change (truthy (Some ("$" ++ ?t))) with true. cbv iota.
  set (G := group3 (of_Z (cents x / 100))) in *.
  assert (EG : exists G', G = String c0 G').
  { unfold G, group3. rewrite E0. cbn [group3_go]. eauto. }
  destruct EG as (G' & EG). rewrite EG in HG. cbn [all_chars] in HG.
  apply andb_prop in HG. destruct HG as [Hg0 HG'].
  rewrite EF.
  destruct (sign_of x); cbn [sign_str append].
  - assert (Hnd : all_chars (fun c => negb (is_dollar c))
                    ("-" ++ G ++ "." ++ String d1 (String d2 "")) = true).
    { assert (Hdc : forall c, is_digit_or_comma c = true -> negb (is_dollar c) = true).
      { intros c Hd. unfold is_dollar, char_eqb.
        destruct (Ascii.eqb c "$") eqn:E; [|reflexivity].
        apply Ascii.eqb_eq in E. subst c. discriminate. }
      rewrite !all_chars_app.
      rewrite (all_chars_impl is_digit_or_comma _ G Hdc)
        by (rewrite EG; cbn [all_chars]; now rewrite Hg0, HG').
      cbn [all_chars]. rewrite (Hdc d1), (Hdc d2); [reflexivity| |];
        unfold is_digit_or_comma; [now rewrite H2 | now rewrite H1]. }
    unfold findall. cbn [append findall_go]. unfold amount_pattern at 1.
    cbn [match_here one_match]. change (is_dollar "$") with true.
    change (is_digit_or_comma "-") with false. cbn [option_map].
    rewrite no_dollar_no_amount; [reflexivity|exact Hnd].
  - rewrite findall_whole; [reflexivity|reflexivity|].
    unfold amount_pattern. cbn [match_here one_match]. change (is_dollar "$") with true.
    cbv iota. rewrite EG. cbn [append one_match]. rewrite Hg0.
    rewrite (star_match_all is_digit_or_comma _ G' _ 3 HG').
    + cbn [option_map String.length]. rewrite length_append. reflexivity.
    + reflexivity.
    + cbn [one_match]. change (is_dot ".") with true. cbn [star_match].
      rewrite H1. cbn [star_match]. rewrite H2. reflexivity.
Qed.

Lemma app_picks_up_total_witness :
  let x := of_dec false 12345678 (-1) in
  let y := of_dec true 5 (-1) in
  spreadsheet_amount_of (Some (total_amount_text x)) = "$1,234,567.80"
  /\ spreadsheet_amount_of (Some (total_amount_text y)) = "0".
Proof.
  intros x y. split.
  - rewrite (app_picks_up_total x eq_refl). vm_compute. reflexivity.
  - rewrite (app_picks_up_total y eq_refl). reflexivity.
Defined.

End AmountFacts.

(** ** Every [str] of a float is read by [float] *)

Module ReprFacts.
Import PyStr PyFloat Py FloatText Regex Extract Tracer Notions MoreNotions.
Import FloatNotions AmountNotions.
Import ExtractFacts ExportFacts AmountFacts.

(** *** The length of a numeral *)






(** *** The digits that [str] writes *)











(** *** Reading the text back *)












End ReprFacts.

(** ** The verdict of a run *)

Module VerdictFacts.
Import PyStr PyFloat Py FloatText PyDict PyTime Regex Extract Tracer Notions MoreNotions.
Import PyStrFacts RunFacts DecisionFacts RunWorldFacts ExtractFacts ReprFacts.




Section WithClock.

Variable clock : nat -> datetime.


End WithClock.

End VerdictFacts.
